(** * Event-type edit page: submit validation, draft initialisation, tabs

    A shallow embedding of [apps/web/pages/event-types/[type]/index.tsx].
    The page keeps the draft of one event type in a form, validates a few
    cross-field rules when the form is submitted, and sends the update
    mutation.  JavaScript objects are finite maps from property names to
    values; the handlers are written in a small state-and-exception monad
    whose state is the part of the page the handlers touch. *)

From Stdlib Require Import ZArith Lia.
From stdpp Require Import gmap strings list fin_maps pretty.

Open Scope Z_scope.
Open Scope string_scope.

(** ** JavaScript values *)

(** Numbers are the integers the form stores (durations, counts, ids,
    epoch milliseconds) plus [NaN]; objects are finite maps, so property
    order is not observable. *)
#[warnings="-register-all"] Inductive JsVal : Type :=
| VUndefined
| VNull
| VBool (b : bool)
| VNum (n : Z)
| VNaN
| VStr (s : string)
| VDate (ms : Z)
| VArr (xs : list JsVal)
| VObj (o : gmap string JsVal).

(** [!!v] *)
Definition truthy (v : JsVal) : bool :=
  match v with
  | VUndefined | VNull | VNaN => false
  | VBool b => b
  | VNum n => negb (n =? 0)%Z
  | VStr s => negb (String.eqb s "")
  | VDate _ | VArr _ | VObj _ => true
  end.

Definition nullish (v : JsVal) : bool :=
  match v with VUndefined | VNull => true | _ => false end.

(** [a || b] *)
Definition js_or (a b : JsVal) : JsVal := if truthy a then a else b.

(** [a ?? b] *)
Definition js_coalesce (a b : JsVal) : JsVal := if nullish a then b else a.

(** [v === w] where one side is a primitive, which is every use on this
    page ([undefined], [null], [true], ["1"], ["HOLD"]).  Arrays and
    objects are never equal to a primitive; [NaN] equals nothing. *)
Definition strict_eq (v w : JsVal) : bool :=
  match v, w with
  | VUndefined, VUndefined | VNull, VNull => true
  | VBool a, VBool b => Bool.eqb a b
  | VNum a, VNum b => (a =? b)%Z
  | VStr a, VStr b => String.eqb a b
  | _, _ => false
  end.

(** SameValueZero, the comparison of [Array.prototype.includes]: as
    [===] on primitives, except that [NaN] equals [NaN]. *)
Definition same_value_zero (v w : JsVal) : bool :=
  match v, w with
  | VNaN, VNaN => true
  | _, _ => strict_eq v w
  end.

(** Property read [v.k] on a value that is neither [null] nor
    [undefined].  Of arrays and strings only [length] is read (the page
    reads no element by index in the code embedded here). *)
Definition get (v : JsVal) (k : string) : JsVal :=
  match v with
  | VObj o => default VUndefined (o !! k)
  | VArr xs => if String.eqb k "length" then VNum (Z.of_nat (length xs)) else VUndefined
  | VStr s => if String.eqb k "length" then VNum (Z.of_nat (String.length s)) else VUndefined
  | _ => VUndefined
  end.

(** Optional chaining [v?.k]. *)
Definition opt (v : JsVal) (k : string) : JsVal :=
  if nullish v then VUndefined else get v k.

(** A destructured property of an object literal or of the form values:
    [undefined] when the key is missing. *)
Definition field (o : gmap string JsVal) (k : string) : JsVal :=
  default VUndefined (o !! k).

(** Rest pattern [{k1, ..., kn, ...rest} = o]. *)
Definition rest (keys : list string) (o : gmap string JsVal) : gmap string JsVal :=
  foldr delete o keys.

(** ** Exceptions and results *)

Inductive Exn : Type :=
| Error (message : string)     (* [new Error(message)] *)
| TypeError.                   (* raised by the runtime *)

Inductive Result (A : Type) : Type :=
| Ok (a : A)
| Throw (e : Exn).
Arguments Ok {A} a.
Arguments Throw {A} e.

#[global] Instance Result_ret : MRet Result := λ A a, Ok a.

#[global] Instance Result_bind : MBind Result := λ A B k r,
  match r with
  | Ok a => k a
  | Throw e => Throw e
  end.

(** [v.k], which throws on [null] and [undefined]. *)
Definition member (v : JsVal) (k : string) : Result JsVal :=
  if nullish v then Throw TypeError else Ok (get v k).

(** [v < n] for a number literal [n].  [undefined] and [NaN] compare
    false; [null] and booleans convert to 0 and 1.  Conversion of strings
    and objects to numbers is not modelled: they compare as [NaN]. *)
Definition js_lt (v : JsVal) (n : Z) : bool :=
  match v with
  | VNum m | VDate m => (m <? n)%Z
  | VNull => (0 <? n)%Z
  | VBool b => ((if b then 1 else 0) <? n)%Z
  | _ => false
  end.

(** [xs.includes(x)]; calling it on a value without that method throws.
    ([String.prototype.includes] is not modelled: the page calls
    [includes] on [metadata.multipleDuration], a list of numbers.) *)
Definition includes (xs x : JsVal) : Result bool :=
  match xs with
  | VArr l => Ok (existsb (same_value_zero x) l)
  | _ => Throw TypeError
  end.

(** [xs?.includes(x)] *)
Definition opt_includes (xs x : JsVal) : Result JsVal :=
  if nullish xs then Ok VUndefined else b ← includes xs x; Ok (VBool b).

(** Object literal [{...base, k1: v1, ..., kn: vn}]: later properties
    overwrite earlier ones. *)
Definition assign (base : gmap string JsVal) (props : list (string * JsVal))
  : gmap string JsVal :=
  foldl (λ o kv, <[kv.1 := kv.2]> o) base props.

(** ** The page state touched by the handlers *)

Record Page : Type := mkPage {
  formValues : gmap string JsVal;              (* [formMethods.getValues()] *)
  slugExistsChildrenDialogOpen : list JsVal;   (* the [useState] of the dialog *)
  mutations : list (gmap string JsVal);        (* arguments of [updateMutation.mutate], oldest first *)
  telemetry : list string                      (* [telemetry.event] calls, oldest first *)
}.

Definition M (A : Type) : Type := Page → Result A * Page.

#[global] Instance M_ret : MRet M := λ A a p, (Ok a, p).

#[global] Instance M_bind : MBind M := λ A B k m p,
  match m p with
  | (Ok a, p') => k a p'
  | (Throw e, p') => (Throw e, p')
  end.

Definition throw {A} (e : Exn) : M A := λ p, (Throw e, p).

(** An expression that may throw, evaluated inside a handler. *)
Definition lift {A} (r : Result A) : M A := λ p, (r, p).

(** [if (c) { m }] *)
Definition when (c : bool) (m : M unit) : M unit := if c then m else mret tt.

(** [updateMutation.mutate(payload)] *)
Definition mutate (payload : gmap string JsVal) : M unit :=
  λ p, (Ok tt, mkPage (formValues p) (slugExistsChildrenDialogOpen p)
                      (mutations p ++ [payload]) (telemetry p)).

(** ** Imported helpers

    The page imports the translation function and the two validators from
    other packages; the handlers below are written against this
    interface. *)
Class Imports : Type := {
  (** [t(key)] of [useLocale] *)
  t : string → string;
  (** [validateIntervalLimitOrder(limits)] of [@calcom/lib] *)
  validateIntervalLimitOrder : JsVal → bool;
  (** [validateBookerLayouts(settings)] of [@calcom/lib]: a translation
      key, or [undefined] *)
  validateBookerLayouts : JsVal → option string
}.

(** ** Submitting the draft *)

Section Submit.
Context `{!Imports}.

(** [handleSubmit], called by the confirmation dialog (lines 324-393).
    [eventType] is the record of the page props, an object. *)
Definition handleSubmit (eventType values : gmap string JsVal) : M unit :=
  let periodDates := field values "periodDates" in
  let periodCountCalendarDays := field values "periodCountCalendarDays" in
  let beforeBufferTime := field values "beforeBufferTime" in
  let afterBufferTime := field values "afterBufferTime" in
  let seatsPerTimeSlot := field values "seatsPerTimeSlot" in
  let seatsShowAttendees := field values "seatsShowAttendees" in
  let bookingLimits := field values "bookingLimits" in
  let durationLimits := field values "durationLimits" in
  let recurringEvent := field values "recurringEvent" in
  let locations := field values "locations" in
  let metadata := field values "metadata" in
  let customInputs := field values "customInputs" in
  let children := field values "children" in
  let input :=
    rest ["periodDates"; "periodCountCalendarDays"; "beforeBufferTime";
          "afterBufferTime"; "seatsPerTimeSlot"; "seatsShowAttendees";
          "bookingLimits"; "durationLimits"; "recurringEvent"; "locations";
          "metadata"; "customInputs"; "children"; "seatsPerTimeSlotEnabled";
          "minimumBookingNoticeInDurationType"; "bookerLayouts"] values in
  when (truthy bookingLimits) (
    let isValid := validateIntervalLimitOrder bookingLimits in
    when (negb isValid) (throw (Error (t "event_setup_booking_limits_error"))));;
  when (truthy durationLimits) (
    let isValid := validateIntervalLimitOrder durationLimits in
    when (negb isValid) (throw (Error (t "event_setup_duration_limits_error"))));;
  let layoutError := validateBookerLayouts (js_or (opt metadata "bookerLayouts") VNull) in
  match layoutError with
  | Some key => when (negb (String.eqb key "")) (throw (Error (t key)))
  | None => mret tt
  end;;
  when (negb (strict_eq (opt metadata "multipleDuration") VUndefined)) (
    len ← lift (if nullish metadata then Ok VUndefined
                else member (get metadata "multipleDuration") "length");
    if js_lt len 1 then
      throw (Error (t "event_setup_multiple_duration_error"))
    else if truthy (field input "length") then mret tt
    else
      incl ← lift (opt_includes (opt metadata "multipleDuration") (field input "length"));
      when (negb (truthy incl))
        (throw (Error (t "event_setup_multiple_duration_default_error"))));;
  when (strict_eq (opt (opt (opt metadata "apps") "stripe") "paymentOption") (VStr "HOLD")
        && truthy seatsPerTimeSlot)
    (throw (Error (t "seats_and_no_show_fee_error")));;
  startDate ← lift (member periodDates "startDate");
  endDate ← lift (member periodDates "endDate");
  mutate (assign input
    [("locations", locations);
     ("recurringEvent", recurringEvent);
     ("periodStartDate", startDate);
     ("periodEndDate", endDate);
     ("periodCountCalendarDays", VBool (strict_eq periodCountCalendarDays (VStr "1")));
     ("id", field eventType "id");
     ("beforeEventBuffer", beforeBufferTime);
     ("afterEventBuffer", afterBufferTime);
     ("bookingLimits", bookingLimits);
     ("durationLimits", durationLimits);
     ("seatsPerTimeSlot", seatsPerTimeSlot);
     ("seatsShowAttendees", seatsShowAttendees);
     ("metadata", metadata);
     ("customInputs", customInputs);
     ("children", children)]).

(** The [handleSubmit] prop of the form, called when the form is saved
    (lines 414-474). *)
Definition formHandleSubmit (eventType values : gmap string JsVal) : M unit :=
  let periodDates := field values "periodDates" in
  let periodCountCalendarDays := field values "periodCountCalendarDays" in
  let beforeBufferTime := field values "beforeBufferTime" in
  let afterBufferTime := field values "afterBufferTime" in
  let seatsPerTimeSlot := field values "seatsPerTimeSlot" in
  let seatsShowAttendees := field values "seatsShowAttendees" in
  let bookingLimits := field values "bookingLimits" in
  let durationLimits := field values "durationLimits" in
  let recurringEvent := field values "recurringEvent" in
  let locations := field values "locations" in
  let metadata := field values "metadata" in
  let customInputs := field values "customInputs" in
  let input :=
    rest ["periodDates"; "periodCountCalendarDays"; "beforeBufferTime";
          "afterBufferTime"; "seatsPerTimeSlot"; "seatsShowAttendees";
          "bookingLimits"; "durationLimits"; "recurringEvent"; "locations";
          "metadata"; "customInputs"; "seatsPerTimeSlotEnabled"] values in
  when (truthy bookingLimits) (
    let isValid := validateIntervalLimitOrder bookingLimits in
    when (negb isValid) (throw (Error (t "event_setup_booking_limits_error"))));;
  when (truthy durationLimits) (
    let isValid := validateIntervalLimitOrder durationLimits in
    when (negb isValid) (throw (Error (t "event_setup_duration_limits_error"))));;
  let layoutError := validateBookerLayouts (js_or (opt metadata "bookerLayouts") VNull) in
  match layoutError with
  | Some key => when (negb (String.eqb key "")) (throw (Error (t key)))
  | None => mret tt
  end;;
  when (negb (strict_eq (opt metadata "multipleDuration") VUndefined)) (
    len ← lift (if nullish metadata then Ok VUndefined
                else member (get metadata "multipleDuration") "length");
    if js_lt len 1 then
      throw (Error (t "event_setup_multiple_duration_error"))
    else if truthy (field input "length") then mret tt
    else
      incl ← lift (opt_includes (opt metadata "multipleDuration") (field input "length"));
      when (negb (truthy incl))
        (throw (Error (t "event_setup_multiple_duration_default_error"))));;
  startDate ← lift (member periodDates "startDate");
  endDate ← lift (member periodDates "endDate");
  mutate (assign input
    [("locations", locations);
     ("recurringEvent", recurringEvent);
     ("periodStartDate", startDate);
     ("periodEndDate", endDate);
     ("periodCountCalendarDays", VBool (strict_eq periodCountCalendarDays (VStr "1")));
     ("id", field eventType "id");
     ("beforeEventBuffer", beforeBufferTime);
     ("afterEventBuffer", afterBufferTime);
     ("bookingLimits", bookingLimits);
     ("durationLimits", durationLimits);
     ("seatsPerTimeSlot", seatsPerTimeSlot);
     ("seatsShowAttendees", seatsShowAttendees);
     ("metadata", metadata);
     ("customInputs", customInputs)]).

(** *** The validation rules, one by one

    The blocks of [handleSubmit] between the destructuring and the call
    of the mutation, each as a function of the form values. *)

Definition checkBookingLimits (values : gmap string JsVal) : Result unit :=
  let bookingLimits := field values "bookingLimits" in
  if truthy bookingLimits && negb (validateIntervalLimitOrder bookingLimits)
  then Throw (Error (t "event_setup_booking_limits_error")) else Ok tt.

Definition checkDurationLimits (values : gmap string JsVal) : Result unit :=
  let durationLimits := field values "durationLimits" in
  if truthy durationLimits && negb (validateIntervalLimitOrder durationLimits)
  then Throw (Error (t "event_setup_duration_limits_error")) else Ok tt.

Definition checkBookerLayouts (values : gmap string JsVal) : Result unit :=
  let metadata := field values "metadata" in
  match validateBookerLayouts (js_or (opt metadata "bookerLayouts") VNull) with
  | Some key => if String.eqb key "" then Ok tt else Throw (Error (t key))
  | None => Ok tt
  end.

Definition checkMultipleDuration (values : gmap string JsVal) : Result unit :=
  let metadata := field values "metadata" in
  let multipleDuration := opt metadata "multipleDuration" in
  if strict_eq multipleDuration VUndefined then Ok tt
  else
    len ← member multipleDuration "length";
    if js_lt len 1 then Throw (Error (t "event_setup_multiple_duration_error"))
    else if truthy (field values "length") then Ok tt
    else
      incl ← opt_includes multipleDuration (field values "length");
      if truthy incl then Ok tt
      else Throw (Error (t "event_setup_multiple_duration_default_error")).

Definition checkSeatsAndPayment (values : gmap string JsVal) : Result unit :=
  let metadata := field values "metadata" in
  let paymentOption := opt (opt (opt metadata "apps") "stripe") "paymentOption" in
  if strict_eq paymentOption (VStr "HOLD") && truthy (field values "seatsPerTimeSlot")
  then Throw (Error (t "seats_and_no_show_fee_error")) else Ok tt.

(** The rules in the order in which [handleSubmit] runs them. *)
Definition validationRules : list (gmap string JsVal → Result unit) :=
  [checkBookingLimits; checkDurationLimits; checkBookerLayouts;
   checkMultipleDuration; checkSeatsAndPayment].

(** The rules of the form's own handler: the same without the last. *)
Definition formValidationRules : list (gmap string JsVal → Result unit) :=
  [checkBookingLimits; checkDurationLimits; checkBookerLayouts;
   checkMultipleDuration].

(** Run the rules in order and stop at the first that throws. *)
Fixpoint runRules (rules : list (gmap string JsVal → Result unit))
    (values : gmap string JsVal) : Result unit :=
  match rules with
  | [] => Ok tt
  | rule :: rules' =>
      match rule values with
      | Ok _ => runRules rules' values
      | Throw e => Throw e
      end
  end.

(** ** The page as a state machine *)

(** [{...v}] for an object; nothing is copied from [undefined] and
    [null].  (The page spreads [metadata.config] and the children of the
    draft, which are objects.) *)
Definition spread (v : JsVal) : gmap string JsVal :=
  match v with VObj o => o | _ => ∅ end.

Inductive Event : Type :=
| FormSubmit                          (* the form is saved *)
| DialogConfirm                       (* [onConfirm] of the dialog *)
| DialogOpenChange                    (* [onOpenChange] of the dialog *)
| FieldChange (k : string) (v : JsVal)  (* a tab edits a field of the draft *)
| MutationSuccess.                    (* [onSuccess] of the mutation *)

Definition setSlugExistsChildrenDialogOpen (l : list JsVal) (p : Page) : Page :=
  mkPage (formValues p) l (mutations p) (telemetry p).

Definition setValue (k : string) (v : JsVal) (p : Page) : Page :=
  mkPage (<[k := v]> (formValues p)) (slugExistsChildrenDialogOpen p)
         (mutations p) (telemetry p).

Definition telemetryEvent (name : string) (p : Page) : Page :=
  mkPage (formValues p) (slugExistsChildrenDialogOpen p) (mutations p)
         (telemetry p ++ [name]).

(** One event handler.  An exception thrown by a submit handler leaves
    the handler (the form shows it; the dialog does not await it), so
    only the state it reached is kept. *)
Definition step (eventType : gmap string JsVal) (ev : Event) (p : Page) : Page :=
  match ev with
  | FormSubmit => (formHandleSubmit eventType (formValues p) p).2
  | DialogConfirm =>
      let p1 := (handleSubmit eventType (formValues p) p).2 in
      let p2 := telemetryEvent "slugReplacementAction" p1 in
      setSlugExistsChildrenDialogOpen [] p2
  | DialogOpenChange => setSlugExistsChildrenDialogOpen [] p
  | FieldChange k v => setValue k v p
  | MutationSuccess =>
      match field (formValues p) "children" with
      | VArr children =>
          setValue "children"
            (VArr (map (λ child, VObj (<["created" := VBool true]> (spread child)))
                       children)) p
      | _ => p
      end
  end.

Definition run (eventType : gmap string JsVal) (evs : list Event) (p : Page) : Page :=
  foldl (λ q ev, step eventType ev q) p evs.

(** The page when it is first rendered: the dialog state starts as [[]]
    (line 395). *)
Definition initialPage (defaultValues : gmap string JsVal) : Page :=
  mkPage defaultValues [] [] [].

(** [slug], the chosen slug shown in the dialog (line 396). *)
Definition slug (eventType : gmap string JsVal) (p : Page) : JsVal :=
  js_coalesce (field (formValues p) "slug") (field eventType "slug").

(** [open] of the dialog (line 479). *)
Definition dialogOpen (p : Page) : bool :=
  (0 <? Z.of_nat (length (slugExistsChildrenDialogOpen p)))%Z.

(** [ch.owner.name], a string. *)
Definition ownerName (ch : JsVal) : string :=
  match get (get ch "owner") "name" with VStr s => s | _ => "" end.

(** [names.join(sep)] *)
Fixpoint join (sep : string) (names : list string) : string :=
  match names with
  | [] => ""
  | [x] => x
  | x :: rest => x ++ sep ++ join sep rest
  end.

(** The [names] value of the dialog text (lines 504-509): all names but
    the last joined by commas, the word "and" when there is more than one
    child, and the last name. *)
Definition dialogNames (children : list JsVal) : string :=
  let names := map ownerName children in
  join ", " (removelast names) ++ " " ++
  (if (1 <? Z.of_nat (length children))%Z then t "and" else "") ++ " " ++
  join "," (drop (length names - 1) names).

End Submit.

(** ** Initialising the draft metadata (lines 191-204) *)

Definition hostSchedulesKey : string := "useHostSchedulesForTeamEvent".

(** The statement mutates [eventType.metadata] in place, and the draft
    takes that same object as its [metadata]; the function returns the
    record after the statement.  The record's metadata is an object or
    [null]: assigning a property to any other value is modelled as the
    [TypeError] of strict-mode code. *)
Definition initMetadata (eventType : gmap string JsVal) (team : JsVal)
  : Result (gmap string JsVal) :=
  let metadata := field eventType "metadata" in
  if truthy team && negb (strict_eq metadata VNull) then
    match metadata with
    | VObj m =>
        let current := opt (opt metadata "config") hostSchedulesKey in
        let flag :=
          if negb (strict_eq current VUndefined)
          then strict_eq current (VBool true)
          else truthy (field eventType "schedule") in
        let config := <[hostSchedulesKey := VBool flag]> (spread (get metadata "config")) in
        Ok (<["metadata" := VObj (<["config" := VObj config]> m)]> eventType)
    | _ => Throw TypeError
    end
  else
    match metadata with
    | VObj m =>
        match m !! "config" with
        | Some (VObj config) =>
            Ok (<["metadata" := VObj (<["config" := VObj (delete hostSchedulesKey config)]> m)]>
                  eventType)
        | _ => Ok eventType
        end
    | _ => Ok eventType
    end.

(** [metadata] of the default values of the form (line 233). *)
Definition defaultMetadata (eventType : gmap string JsVal) (team : JsVal) : Result JsVal :=
  eventType' ← initMetadata eventType team;
  Ok (field eventType' "metadata").

(** The property [metadata.config.useHostSchedulesForTeamEvent], if the
    objects on the way exist and the key is there. *)
Definition hostSchedulesFlag (metadata : JsVal) : option JsVal :=
  match metadata with
  | VObj m =>
      match m !! "config" with
      | Some (VObj config) => config !! hostSchedulesKey
      | _ => None
      end
  | _ => None
  end.

(** ** Tabs (lines 109-124 and 299-322) *)

Inductive TabName : Type :=
| setup | availability | apps | limits | recurring | team | advanced
| workflows | webhooks.

#[global] Instance TabName_eq_dec : EqDecision TabName.
Proof. solve_decision. Defined.

(** The enumeration of [querySchema], in its order. *)
Definition tabNames : list (string * TabName) :=
  [("setup", setup); ("availability", availability); ("apps", apps);
   ("limits", limits); ("recurring", recurring); ("team", team);
   ("advanced", advanced); ("workflows", workflows); ("webhooks", webhooks)].

Fixpoint assoc {A} (k : string) (l : list (string * A)) : option A :=
  match l with
  | [] => None
  | (k', a) :: l' => if String.eqb k k' then Some a else assoc k l'
  end.

(** [querySchema.parse({tabName})]: the enumeration, optional, with
    default ["setup"]; [None] is a parse error. *)
Definition parseTabName (tabName : option string) : option TabName :=
  match tabName with
  | None => Some setup
  | Some s => assoc s tabNames
  end.

(** The components of the tab panels; the props they are given are
    fixed by the page props and are not modelled. *)
Inductive TabView : Type :=
| EventSetupTab | EventAvailabilityTab | EventTeamTab | EventLimitsTab
| EventAdvancedTab | EventRecurringTab | EventAppsTab | EventWorkflowsTab
| EventWebhooksTab.

#[global] Instance TabView_eq_dec : EqDecision TabView.
Proof. solve_decision. Defined.

(** [tabMap], in the order of the object literal. *)
Definition tabMap : list (TabName * TabView) :=
  [(setup, EventSetupTab); (availability, EventAvailabilityTab);
   (team, EventTeamTab); (limits, EventLimitsTab);
   (advanced, EventAdvancedTab); (recurring, EventRecurringTab);
   (apps, EventAppsTab); (workflows, EventWorkflowsTab);
   (webhooks, EventWebhooksTab)].

Fixpoint lookupTab (tabName : TabName) (m : list (TabName * TabView)) : option TabView :=
  match m with
  | [] => None
  | (k, view) :: m' => if decide (k = tabName) then Some view else lookupTab tabName m'
  end.

(** [tabMap[tabName]] *)
Definition selectTab (tabName : TabName) : option TabView := lookupTab tabName tabMap.

(** [disableBorder] of the layout (line 409). *)
Definition disableBorder (tabName : TabName) : bool :=
  match tabName with apps | workflows | webhooks => true | _ => false end.

(** ** Interval limits *)

(** Modelled from the spec: [validateIntervalLimitOrder] and the
    [IntervalLimit] type are in other packages of the repository
    ([@calcom/lib], [@calcom/types]).  The spec has limit maps "each
    mapping a period unit to a maximum count", the units day, week, month
    and year, and the rule "every narrower time unit's limit must be ≤ the
    limit of any broader unit it is nested under". *)
Inductive PeriodUnit : Type := Day | Week | Month | Year.

Definition periodUnits : list PeriodUnit := [Day; Week; Month; Year].

Definition unitKey (u : PeriodUnit) : string :=
  match u with
  | Day => "PER_DAY" | Week => "PER_WEEK" | Month => "PER_MONTH" | Year => "PER_YEAR"
  end.

Definition unitRank (u : PeriodUnit) : nat :=
  match u with Day => 0 | Week => 1 | Month => 2 | Year => 3 end.

(** [u] is nested under [v]. *)
Definition narrower (u v : PeriodUnit) : bool := (unitRank u <? unitRank v)%nat.

(** The bound a limit map gives to a unit, if any. *)
Definition bound (limits : JsVal) (u : PeriodUnit) : option Z :=
  match get limits (unitKey u) with
  | VNum n => Some n
  | _ => None
  end.

(** Modelled from the spec: the result of [validateIntervalLimitOrder],
    "every narrower time unit's limit must be ≤ the limit of any broader
    unit it is nested under"; a unit without a bound constrains
    nothing. *)
Definition intervalLimitOrdered (limits : JsVal) : bool :=
  forallb (λ u,
    forallb (λ v,
      if narrower u v then
        match bound limits u, bound limits v with
        | Some a, Some b => (a <=? b)%Z
        | _, _ => true
        end
      else true) periodUnits) periodUnits.

(** The imports with the limit validator of the spec. *)
Definition specImports (translate : string → string)
    (layouts : JsVal → option string) : Imports :=
  {| t := translate;
     validateIntervalLimitOrder := intervalLimitOrdered;
     validateBookerLayouts := layouts |}.

(** The payload of [handleSubmit], as a function of the draft: the
    argument of [updateMutation.mutate] (lines 375-392). *)
Definition updateInput (eventType values : gmap string JsVal)
  : Result (gmap string JsVal) :=
  let periodDates := field values "periodDates" in
  startDate ← member periodDates "startDate";
  endDate ← member periodDates "endDate";
  Ok (assign
    (rest ["periodDates"; "periodCountCalendarDays"; "beforeBufferTime";
           "afterBufferTime"; "seatsPerTimeSlot"; "seatsShowAttendees";
           "bookingLimits"; "durationLimits"; "recurringEvent"; "locations";
           "metadata"; "customInputs"; "children"; "seatsPerTimeSlotEnabled";
           "minimumBookingNoticeInDurationType"; "bookerLayouts"] values)
    [("locations", field values "locations");
     ("recurringEvent", field values "recurringEvent");
     ("periodStartDate", startDate);
     ("periodEndDate", endDate);
     ("periodCountCalendarDays",
      VBool (strict_eq (field values "periodCountCalendarDays") (VStr "1")));
     ("id", field eventType "id");
     ("beforeEventBuffer", field values "beforeBufferTime");
     ("afterEventBuffer", field values "afterBufferTime");
     ("bookingLimits", field values "bookingLimits");
     ("durationLimits", field values "durationLimits");
     ("seatsPerTimeSlot", field values "seatsPerTimeSlot");
     ("seatsShowAttendees", field values "seatsShowAttendees");
     ("metadata", field values "metadata");
     ("customInputs", field values "customInputs");
     ("children", field values "children")]).

(** The payload of the form's own handler (lines 457-473). *)
Definition formUpdateInput (eventType values : gmap string JsVal)
  : Result (gmap string JsVal) :=
  let periodDates := field values "periodDates" in
  startDate ← member periodDates "startDate";
  endDate ← member periodDates "endDate";
  Ok (assign
    (rest ["periodDates"; "periodCountCalendarDays"; "beforeBufferTime";
           "afterBufferTime"; "seatsPerTimeSlot"; "seatsShowAttendees";
           "bookingLimits"; "durationLimits"; "recurringEvent"; "locations";
           "metadata"; "customInputs"; "seatsPerTimeSlotEnabled"] values)
    [("locations", field values "locations");
     ("recurringEvent", field values "recurringEvent");
     ("periodStartDate", startDate);
     ("periodEndDate", endDate);
     ("periodCountCalendarDays",
      VBool (strict_eq (field values "periodCountCalendarDays") (VStr "1")));
     ("id", field eventType "id");
     ("beforeEventBuffer", field values "beforeBufferTime");
     ("afterEventBuffer", field values "afterBufferTime");
     ("bookingLimits", field values "bookingLimits");
     ("durationLimits", field values "durationLimits");
     ("seatsPerTimeSlot", field values "seatsPerTimeSlot");
     ("seatsShowAttendees", field values "seatsShowAttendees");
     ("metadata", field values "metadata");
     ("customInputs", field values "customInputs")]).

(** The page after one more call of the mutation. *)
Definition withMutation (payload : gmap string JsVal) (p : Page) : Page :=
  mkPage (formValues p) (slugExistsChildrenDialogOpen p)
         (mutations p ++ [payload]) (telemetry p).

(** ** Drafts used as examples *)

Definition obj (props : list (string * JsVal)) : gmap string JsVal := list_to_map props.

Definition exampleEventType : gmap string JsVal :=
  obj [("id", VNum 1); ("slug", VStr "intro"); ("title", VStr "Intro call")].

Definition examplePeriodDates : JsVal :=
  VObj (obj [("startDate", VDate 1700000000000); ("endDate", VDate 1700086400000)]).

(** Default duration 30 with the durations 15 and 45 on offer. *)
Definition draftDurationOutsideSet : gmap string JsVal :=
  obj [("title", VStr "Intro call"); ("length", VNum 30);
       ("periodDates", examplePeriodDates); ("periodCountCalendarDays", VStr "1");
       ("metadata", VObj (obj [("multipleDuration", VArr [VNum 15; VNum 45])]))].

(** Five seats per slot and the "HOLD" payment option of Stripe. *)
Definition draftSeatsAndHold : gmap string JsVal :=
  obj [("title", VStr "Intro call"); ("length", VNum 30);
       ("periodDates", examplePeriodDates); ("periodCountCalendarDays", VStr "0");
       ("seatsPerTimeSlot", VNum 5); ("seatsPerTimeSlotEnabled", VBool true);
       ("metadata",
        VObj (obj [("apps",
          VObj (obj [("stripe", VObj (obj [("paymentOption", VStr "HOLD")]))]))]))].

(** A draft that passes every rule and carries the fields the tabs add
    for their own use. *)
Definition draftWithUiFields : gmap string JsVal :=
  obj [("title", VStr "Intro call"); ("length", VNum 30);
       ("periodDates", examplePeriodDates); ("periodCountCalendarDays", VStr "1");
       ("minimumBookingNotice", VNum 120);
       ("minimumBookingNoticeInDurationType", VNum 2);
       ("seatsPerTimeSlotEnabled", VBool false);
       ("bookerLayouts", VObj (obj [("defaultLayout", VStr "month_view")]));
       ("metadata", VNull)].

(** The slug of the draft is also a slug of Alice, who owns a child
    event type. *)
Definition draftSlugCollision : gmap string JsVal :=
  obj [("title", VStr "Intro call"); ("slug", VStr "intro"); ("length", VNum 30);
       ("periodDates", examplePeriodDates); ("periodCountCalendarDays", VStr "1");
       ("metadata", VNull);
       ("children",
        VArr [VObj (obj [("slug", VStr "intro");
                         ("owner", VObj (obj [("id", VNum 7); ("name", VStr "Alice");
                                              ("eventTypeSlugs", VArr [VStr "intro"])]))])])].

(** No seats, and the "HOLD" payment option. *)
Definition draftZeroSeatsAndHold : gmap string JsVal :=
  <["seatsPerTimeSlot" := VNum 0]> draftSeatsAndHold.

(** Ten bookings a day but two a week. *)
Definition draftLimitsOutOfOrder : gmap string JsVal :=
  obj [("title", VStr "Intro call"); ("length", VNum 30);
       ("periodDates", examplePeriodDates);
       ("bookingLimits", VObj (obj [("PER_DAY", VNum 10); ("PER_WEEK", VNum 2)]))].

(** A team event whose record has no metadata, and one with metadata,
    schedule 0 and no flag. *)
Definition exampleTeam : JsVal := VObj (obj [("id", VNum 3); ("slug", VStr "sales")]).

Definition recordWithoutMetadata : gmap string JsVal :=
  obj [("id", VNum 1); ("metadata", VNull); ("schedule", VNum 12)].

Definition recordWithScheduleZero : gmap string JsVal :=
  obj [("id", VNum 1); ("metadata", VObj ∅); ("schedule", VNum 0)].

Definition recordWithSchedule : gmap string JsVal :=
  obj [("id", VNum 1); ("metadata", VObj ∅); ("schedule", VNum 12)].

(** The two message keys of the limit rules. *)
Definition limitOrderError (translate : string → string) (e : Exn) : Prop :=
  e = Error (translate "event_setup_booking_limits_error") ∨
  e = Error (translate "event_setup_duration_limits_error").

(** Imports with the limit validator of the spec, keys for messages,
    and a layout validator that accepts everything. *)
Definition plainImports : Imports := specImports (λ key, key) (λ _, None).

(** ** Array methods

    [map], [filter] and [find] with a callback that may throw; calling
    them on a value that is not an array throws (it has no such
    method). *)

#[global] Instance Exn_eq_dec : EqDecision Exn.
Proof. solve_decision. Defined.

#[global] Instance Result_eq_dec {A} `{EqDecision A} : EqDecision (Result A).
Proof. solve_decision. Defined.

#[global] Instance VStr_inj : Inj (=) (=) VStr.
Proof. by intros s1 s2 [= ->]. Qed.

Definition arrayItems (v : JsVal) : Result (list JsVal) :=
  match v with
  | VArr items => Ok items
  | _ => Throw TypeError
  end.

Fixpoint mapResult {A B} (f : A → Result B) (l : list A) : Result (list B) :=
  match l with
  | [] => Ok []
  | x :: l' => y ← f x; ys ← mapResult f l'; Ok (y :: ys)
  end.

Fixpoint filterResult {A} (f : A → Result bool) (l : list A) : Result (list A) :=
  match l with
  | [] => Ok []
  | x :: l' =>
      b ← f x; kept ← filterResult f l';
      Ok (if (b : bool) then x :: kept else kept)
  end.

(** [find] stops at the first element the callback accepts and gives
    [undefined] when there is none. *)
Fixpoint findResult (f : JsVal → Result bool) (l : list JsVal) : Result JsVal :=
  match l with
  | [] => Ok VUndefined
  | x :: l' => b ← f x; if (b : bool) then Ok x else findResult f l'
  end.

(** ** The default values of the form (lines 213-248) *)

(** [owner.eventTypeSlugs] of a child (lines 240-244): the slugs of the
    event types of the team member who owns the child, without the slug
    of this event type; [[]] when there is no team or no such member. *)
Definition memberSlugs (eventType : gmap string JsVal) (ch : JsVal) : Result JsVal :=
  let team := field eventType "team" in
  if nullish team then Ok (VArr [])
  else
    members ← arrayItems (get team "members");
    found ← findResult (λ mem,
               user ← member mem "user";
               userId ← member user "id";
               ownerId ← member (get ch "owner") "id";
               Ok (strict_eq userId ownerId)) members;
    if nullish found then Ok (VArr [])
    else
      eventTypes ← member (get found "user") "eventTypes";
      items ← arrayItems eventTypes;
      slugs ← mapResult (λ evTy, member evTy "slug") items;
      Ok (js_coalesce
            (VArr (filter (λ slug, strict_eq slug (field eventType "slug") = false) slugs))
            (VArr [])).

(** The test of [find] (line 242), [mem.user.id === ch.owner.id], on a
    member and a child whose [user] and [owner] can be read. *)
Definition ownsChild (ch mem : JsVal) : bool :=
  strict_eq (get (get mem "user") "id") (get (get ch "owner") "id").

(** One child of the draft (lines 235-246). *)
Definition defaultChild (eventType : gmap string JsVal) (ch : JsVal) : Result JsVal :=
  owner ← member ch "owner";
  slugs ← memberSlugs eventType ch;
  Ok (VObj (assign (spread ch)
        [("created", VBool true);
         ("owner", VObj (assign (spread owner) [("eventTypeSlugs", slugs)]))])).

(** [defaultValues]; [periodDates] is the state of line 186, an object,
    and [metadata] the initialised metadata of line 191. *)
Definition defaultValues (eventType periodDates : gmap string JsVal) (metadata : JsVal)
  : Result (gmap string JsVal) :=
  items ← arrayItems (field eventType "children");
  children ← mapResult (defaultChild eventType) items;
  Ok (assign ∅
    [("title", field eventType "title");
     ("locations", js_or (field eventType "locations") (VArr []));
     ("recurringEvent", js_or (field eventType "recurringEvent") VNull);
     ("description", js_coalesce (field eventType "description") VUndefined);
     ("schedule", js_or (field eventType "schedule") VUndefined);
     ("bookingLimits", js_or (field eventType "bookingLimits") VUndefined);
     ("durationLimits", js_or (field eventType "durationLimits") VUndefined);
     ("length", field eventType "length");
     ("hidden", field eventType "hidden");
     ("periodDates",
      VObj (assign ∅ [("startDate", field periodDates "startDate");
                      ("endDate", field periodDates "endDate")]));
     ("bookingFields", field eventType "bookingFields");
     ("periodType", field eventType "periodType");
     ("periodCountCalendarDays",
      if truthy (field eventType "periodCountCalendarDays") then VStr "1" else VStr "0");
     ("schedulingType", field eventType "schedulingType");
     ("minimumBookingNotice", field eventType "minimumBookingNotice");
     ("metadata", metadata);
     ("hosts", field eventType "hosts");
     ("children", VArr children)]).

(** ** The keys of the two destructurings and of the payload *)

(** The names [handleSubmit] takes out of the draft (lines 325-346). *)
Definition handleSubmitTaken : list string :=
  ["periodDates"; "periodCountCalendarDays"; "beforeBufferTime";
   "afterBufferTime"; "seatsPerTimeSlot"; "seatsShowAttendees";
   "bookingLimits"; "durationLimits"; "recurringEvent"; "locations";
   "metadata"; "customInputs"; "children"; "seatsPerTimeSlotEnabled";
   "minimumBookingNoticeInDurationType"; "bookerLayouts"].

(** The names the form's handler takes out (lines 415-432). *)
Definition formTaken : list string :=
  ["periodDates"; "periodCountCalendarDays"; "beforeBufferTime";
   "afterBufferTime"; "seatsPerTimeSlot"; "seatsShowAttendees";
   "bookingLimits"; "durationLimits"; "recurringEvent"; "locations";
   "metadata"; "customInputs"; "seatsPerTimeSlotEnabled"].

(** The properties both handlers write after [...input] (lines 376-390
    and 458-472); [handleSubmit] writes [children] as well. *)
Definition payloadWritten : list string :=
  ["locations"; "recurringEvent"; "periodStartDate"; "periodEndDate";
   "periodCountCalendarDays"; "id"; "beforeEventBuffer"; "afterEventBuffer";
   "bookingLimits"; "durationLimits"; "seatsPerTimeSlot"; "seatsShowAttendees";
   "metadata"; "customInputs"].

(** ** The error handler of the mutation (lines 163-183) *)

(** The error as the handler reads it: whether it is an [HttpError],
    its status code and message, and [err.data?.code]. *)
Record MutationError : Type := mkMutationError {
  isHttpError : bool;
  statusCode : Z;
  errMessage : string;
  errCode : option string
}.

(** The calls of [showToast], in order: message and kind. *)
Definition onError (err : MutationError) : list (string * string) :=
  let httpToast :=
    if isHttpError err
    then [(pretty (statusCode err) ++ ": " ++ errMessage err, "error")]
    else [] in
  let message := "" in
  let message :=
    match errCode err with
    | Some code =>
        if String.eqb code "UNAUTHORIZED"
        then code ++ ": You are not able to update this event"
        else message
    | None => message
    end in
  let message :=
    match errCode err with
    | Some code =>
        if String.eqb code "PARSE_ERROR" || String.eqb code "BAD_REQUEST"
        then code ++ ": " ++ errMessage err
        else message
    | None => message
    end in
  (httpToast ++
   [if negb (String.eqb message "") then (message, "error")
    else (errMessage err, "error")])%list.

(** ** The counters of the apps tab (lines 284-293) *)

(** [Object.entries(v)] of an object; values without own properties
    (numbers, booleans) have none.  [metadata.apps] is an object. *)
Definition objectEntries (v : JsVal) : list (string * JsVal) :=
  match v with
  | VObj o => map_to_list o
  | _ => []
  end.

(** [app.isInstalled], as a condition *)
Definition isInstalledApp (app : JsVal) : Result bool :=
  installed ← member app "isInstalled";
  Ok (truthy installed).

(** [eventTypeApps?.filter((app) => app.isInstalled).length || 0];
    [eventTypeApps] is [undefined] until the query has answered. *)
Definition numberOfInstalledApps (eventTypeApps : JsVal) : Result nat :=
  if nullish eventTypeApps then Ok 0%nat
  else
    items ← arrayItems eventTypeApps;
    kept ← filterResult isInstalledApp items;
    Ok (length kept).

(** The callback of line 291 on one entry [[appId, appData]]. *)
Definition isActiveApp (eventTypeApps : JsVal) (entry : string * JsVal) : Result bool :=
  found ← (if nullish eventTypeApps then Ok VUndefined
           else
             items ← arrayItems eventTypeApps;
             findResult (λ app,
               appSlug ← member app "slug";
               Ok (strict_eq appSlug (VStr entry.1))) items);
  if truthy (opt found "isInstalled") then
    enabled ← member entry.2 "enabled";
    Ok (truthy enabled)
  else Ok false.

Definition numberOfActiveApps (values : gmap string JsVal) (eventTypeApps : JsVal)
  : Result nat :=
  let appsMetadata := opt (field values "metadata") "apps" in
  if truthy appsMetadata then
    kept ← filterResult (isActiveApp eventTypeApps) (objectEntries appsMetadata);
    Ok (length kept)
  else Ok 0%nat.

(** ** Counting events *)

(** The events that run a submit handler. *)
Definition isSubmit (ev : Event) : bool :=
  match ev with FormSubmit | DialogConfirm => true | _ => false end.

(** The events that write to the draft. *)
Definition writesDraft (ev : Event) : bool :=
  match ev with FieldChange _ _ | MutationSuccess => true | _ => false end.

Definition isConfirm (ev : Event) : bool :=
  match ev with DialogConfirm => true | _ => false end.

(** ** More examples *)

(** A managed event type of a team with two members; Alice owns a child
    and has two other event types, one of them with the slug of this
    one. *)
Definition exampleManagedRecord : gmap string JsVal :=
  obj [("id", VNum 1); ("slug", VStr "intro"); ("title", VStr "Intro call");
       ("length", VNum 30); ("hidden", VBool false);
       ("periodCountCalendarDays", VBool true);
       ("metadata", VObj ∅); ("schedule", VNull);
       ("team", VObj (obj [("members",
          VArr [VObj (obj [("user", VObj (obj [("id", VNum 9);
                                               ("eventTypes", VArr [])]))]);
                VObj (obj [("user", VObj (obj [("id", VNum 7);
                   ("eventTypes",
                    VArr [VObj (obj [("slug", VStr "intro")]);
                          VObj (obj [("slug", VStr "demo")])])]))])])]));
       ("children",
        VArr [VObj (obj [("slug", VStr "intro");
                         ("owner", VObj (obj [("id", VNum 7); ("name", VStr "Alice")]))])])].

Definition examplePeriodState : gmap string JsVal :=
  obj [("startDate", VDate 1700000000000); ("endDate", VDate 1700086400000)].

Definition exampleApps : JsVal :=
  VArr [VObj (obj [("slug", VStr "stripe"); ("isInstalled", VBool true)]);
        VObj (obj [("slug", VStr "giphy"); ("isInstalled", VBool false)]);
        VObj (obj [("slug", VStr "zoom"); ("isInstalled", VBool true)])].

Definition draftWithApps : gmap string JsVal :=
  obj [("metadata",
        VObj (obj [("apps",
          VObj (obj [("stripe", VObj (obj [("enabled", VBool true)]));
                     ("giphy", VObj (obj [("enabled", VBool true)]));
                     ("zoom", VObj (obj [("enabled", VBool false)]))]))]))].

Definition exampleUnauthorized : MutationError :=
  mkMutationError false 0 "You shall not pass" (Some "UNAUTHORIZED").

(** An empty list of durations. *)
Definition draftNoDurations : gmap string JsVal :=
  obj [("title", VStr "Intro call"); ("length", VNum 30);
       ("periodDates", examplePeriodDates);
       ("metadata", VObj (obj [("multipleDuration", VArr [])]))].

(** A valid draft that has lost its [periodDates]. *)
Definition draftWithoutPeriodDates : gmap string JsVal :=
  delete "periodDates" draftWithUiFields.

(** An event type of one user: no team, no children. *)
Definition exampleSoloRecord : gmap string JsVal :=
  obj [("id", VNum 2); ("slug", VStr "chat"); ("title", VStr "Chat");
       ("length", VNum 15); ("metadata", VNull); ("children", VArr [])].

(** The default values of the managed record. *)
Definition exampleDefaultDraft : gmap string JsVal :=
  match defaultValues exampleManagedRecord examplePeriodState (VObj ∅) with
  | Ok draft => draft
  | Throw _ => ∅
  end.

(** The record with its metadata initialised for the example team. *)
Definition exampleInitialisedRecord : gmap string JsVal :=
  match initMetadata recordWithSchedule exampleTeam with
  | Ok eventType' => eventType'
  | Throw _ => ∅
  end.

(** * Properties *)

(** ** Objects *)

Lemma lookup_rest (keys : list string) (o : gmap string JsVal) (k : string) :
  rest keys o !! k = if decide (k ∈ keys) then None else o !! k.
Proof.
  induction keys as [|k' keys IH]; cbn [rest foldr].
  - case_decide as Hin; [by apply elem_of_nil in Hin | done].
  - rewrite lookup_delete. fold (rest keys o). rewrite IH.
    destruct (decide (k' = k)) as [->|Hne].
    + rewrite decide_True; [done | apply elem_of_cons; by left].
    + destruct (decide (k ∈ keys)) as [Hin|Hnin].
      * rewrite decide_True; [done | apply elem_of_cons; by right].
      * rewrite decide_False; [done |].
        intros [Heq|Hin]%elem_of_cons; [congruence | done].
Qed.

(** Membership of a key in a list of key literals, by evaluation. *)
Ltac solve_key := apply (bool_decide_unpack _); by vm_compute.

(** Side conditions on a concrete draft, by evaluation. *)
Ltac by_eval := vm_compute; reflexivity.

Lemma field_rest (keys : list string) (o : gmap string JsVal) (k : string) :
  k ∉ keys → field (rest keys o) k = field o k.
Proof. intros Hk. unfold field. rewrite lookup_rest, decide_False; done. Qed.

Section SubmitProperties.
Context `{!Imports}.

(** ** The handlers run the rules in order, then send the payload *)

Ltac unfold_monad :=
  unfold when, mbind, M_bind, Result_bind, mret, M_ret, Result_ret, throw, lift, mutate,
    withMutation.

Ltac split_rules metadata values :=
  let Hmd := fresh "Hmd" in
  assert (Hmd : strict_eq (opt metadata "multipleDuration") VUndefined = false →
                (if nullish metadata then Ok VUndefined
                 else member (get metadata "multipleDuration") "length")
                = member (opt metadata "multipleDuration") "length")
    by (unfold opt; by destruct (nullish metadata));
  (destruct (truthy (field values "bookingLimits"));
    [destruct (validateIntervalLimitOrder (field values "bookingLimits"))|]);
    cbn [negb andb]; try reflexivity;
  (destruct (truthy (field values "durationLimits"));
    [destruct (validateIntervalLimitOrder (field values "durationLimits"))|]);
    cbn [negb andb]; try reflexivity;
  (destruct (validateBookerLayouts _) as [key|];
    [destruct (String.eqb key "")|]; cbn [negb]; try reflexivity);
  (destruct (strict_eq (opt metadata "multipleDuration") VUndefined) eqn:Hu;
    cbn [negb]; [|rewrite (Hmd eq_refl)]);
  repeat first
    [ reflexivity
    | match goal with
      | Htail : ∀ q, _ q = _ |- _ => apply Htail
      end
    | match goal with
      | |- context [member ?v ?k] => destruct (member v k)
      | |- context [js_lt ?v ?n] => destruct (js_lt v n)
      | |- context [opt_includes ?v ?x] => destruct (opt_includes v x)
      | |- context [if truthy ?v then _ else _] => destruct (truthy v)
      | |- context [truthy ?v] => destruct (truthy v)
      | |- context [strict_eq ?v ?w] => destruct (strict_eq v w)
      end; cbn [negb andb] ].

Lemma handleSubmit_unfold (eventType values : gmap string JsVal) (p : Page) :
  handleSubmit eventType values p =
  match runRules validationRules values with
  | Throw e => (Throw e, p)
  | Ok _ =>
      match updateInput eventType values with
      | Ok payload => (Ok tt, withMutation payload p)
      | Throw e => (Throw e, p)
      end
  end.
Proof.
  unfold handleSubmit, validationRules, runRules,
    checkBookingLimits, checkDurationLimits, checkBookerLayouts,
    checkMultipleDuration, checkSeatsAndPayment.
  rewrite field_rest by solve_key.
  set (tail := lift (member (field values "periodDates") "startDate") ≫= _).
  assert (Htail : ∀ q, tail q =
    match updateInput eventType values with
    | Ok payload => (Ok tt, withMutation payload q)
    | Throw e => (Throw e, q)
    end).
  { intros q. unfold tail, updateInput. unfold_monad.
    by repeat destruct (member _ _). }
  clearbody tail. set (update := updateInput eventType values) in *. clearbody update.
  set (metadata := field values "metadata").
  unfold_monad.
  split_rules metadata values.
Qed.

Lemma formHandleSubmit_unfold (eventType values : gmap string JsVal) (p : Page) :
  formHandleSubmit eventType values p =
  match runRules formValidationRules values with
  | Throw e => (Throw e, p)
  | Ok _ =>
      match formUpdateInput eventType values with
      | Ok payload => (Ok tt, withMutation payload p)
      | Throw e => (Throw e, p)
      end
  end.
Proof.
  unfold formHandleSubmit, formValidationRules, runRules,
    checkBookingLimits, checkDurationLimits, checkBookerLayouts,
    checkMultipleDuration.
  rewrite field_rest by solve_key.
  set (tail := lift (member (field values "periodDates") "startDate") ≫= _).
  assert (Htail : ∀ q, tail q =
    match formUpdateInput eventType values with
    | Ok payload => (Ok tt, withMutation payload q)
    | Throw e => (Throw e, q)
    end).
  { intros q. unfold tail, formUpdateInput. unfold_monad.
    by repeat destruct (member _ _). }
  clearbody tail. set (update := formUpdateInput eventType values) in *. clearbody update.
  set (metadata := field values "metadata").
  unfold_monad.
  split_rules metadata values.
Qed.

(** A rule that throws after rules that all pass decides the run. *)
Lemma runRules_first_failure rules (values : gmap string JsVal) i rule e :
  rules !! i = Some rule →
  rule values = Throw e →
  Forall (λ r, r values = Ok tt) (take i rules) →
  runRules rules values = Throw e.
Proof.
  revert i. induction rules as [|r rules IH]; intros [|i] Hi He Hpass;
    simplify_eq/=.
  - by rewrite He.
  - apply Forall_cons in Hpass as [Hr Hpass]. rewrite Hr. eauto.
Qed.

Lemma runRules_app rules1 rules2 (values : gmap string JsVal) :
  runRules (rules1 ++ rules2) values =
  match runRules rules1 values with
  | Ok _ => runRules rules2 values
  | Throw e => Throw e
  end.
Proof.
  induction rules1 as [|r rules1 IH]; simpl; [done|].
  by destruct (r values).
Qed.

Lemma handleSubmit_no_mutation_on_throw eventType values p e q :
  handleSubmit eventType values p = (Throw e, q) → q = p.
Proof.
  rewrite handleSubmit_unfold. repeat case_match; congruence.
Qed.

(** C5: when one of the ordered validation rules of [handleSubmit] throws
    and the rules before it pass, [handleSubmit] throws that same error
    and leaves the page as it was: the mutation is not called. *)
Theorem submit_aborts_at_first_failure
    (eventType values : gmap string JsVal) (p : Page) i rule e :
  validationRules !! i = Some rule →
  rule values = Throw e →
  Forall (λ r, r values = Ok tt) (take i validationRules) →
  handleSubmit eventType values p = (Throw e, p) ∧
  mutations (handleSubmit eventType values p).2 = mutations p.
Proof.
  intros Hi He Hpass.
  rewrite handleSubmit_unfold.
  by rewrite (runRules_first_failure _ _ _ _ _ Hi He Hpass).
Qed.

Ltac lookup_payload :=
  unfold assign; cbn [foldl fst snd];
  repeat (rewrite lookup_insert_ne by done);
  first [ by rewrite lookup_insert_eq
        | rewrite lookup_rest;
          first [ rewrite decide_True; [done | solve_key]
                | rewrite decide_False; [done | solve_key] ] ].

(** The same for the form's own handler and its four rules. *)
Lemma form_submit_aborts_at_first_failure
    (eventType values : gmap string JsVal) (p : Page) i rule e :
  formValidationRules !! i = Some rule →
  rule values = Throw e →
  Forall (λ r, r values = Ok tt) (take i formValidationRules) →
  formHandleSubmit eventType values p = (Throw e, p).
Proof.
  intros Hi He Hpass. rewrite formHandleSubmit_unfold.
  by rewrite (runRules_first_failure _ _ _ _ _ Hi He Hpass).
Qed.

Lemma updateInput_ok (eventType values : gmap string JsVal) :
  nullish (field values "periodDates") = false →
  ∃ payload, updateInput eventType values = Ok payload ∧
    (payload !! "periodStartDate" = Some (get (field values "periodDates") "startDate") ∧
     payload !! "periodEndDate" = Some (get (field values "periodDates") "endDate") ∧
     payload !! "periodCountCalendarDays" =
       Some (VBool (strict_eq (field values "periodCountCalendarDays") (VStr "1"))) ∧
     payload !! "minimumBookingNoticeInDurationType" = None ∧
     payload !! "seatsPerTimeSlotEnabled" = None) ∧
    payload !! "bookerLayouts" = None ∧
    payload !! "children" = Some (field values "children") ∧
    payload !! "seatsPerTimeSlot" = Some (field values "seatsPerTimeSlot") ∧
    payload !! "metadata" = Some (field values "metadata").
Proof.
  intros Hpd. unfold updateInput, member. rewrite Hpd. cbn [mbind Result_bind].
  eexists; split; [reflexivity|].
  repeat split; lookup_payload.
Qed.

Lemma formUpdateInput_ok (eventType values : gmap string JsVal) :
  nullish (field values "periodDates") = false →
  ∃ payload, formUpdateInput eventType values = Ok payload ∧
    payload !! "minimumBookingNoticeInDurationType" =
      values !! "minimumBookingNoticeInDurationType" ∧
    payload !! "bookerLayouts" = values !! "bookerLayouts" ∧
    payload !! "children" = values !! "children" ∧
    payload !! "seatsPerTimeSlotEnabled" = None ∧
    payload !! "seatsPerTimeSlot" = Some (field values "seatsPerTimeSlot") ∧
    payload !! "metadata" = Some (field values "metadata").
Proof.
  intros Hpd. unfold formUpdateInput, member. rewrite Hpd. cbn [mbind Result_bind].
  eexists; split; [reflexivity|].
  repeat split; lookup_payload.
Qed.


Lemma formUpdateInput_period (eventType values : gmap string JsVal) :
  nullish (field values "periodDates") = false →
  ∃ payload, formUpdateInput eventType values = Ok payload ∧
    payload !! "periodStartDate" = Some (get (field values "periodDates") "startDate") ∧
    payload !! "periodEndDate" = Some (get (field values "periodDates") "endDate") ∧
    payload !! "periodCountCalendarDays" =
      Some (VBool (strict_eq (field values "periodCountCalendarDays") (VStr "1"))) ∧
    payload !! "seatsPerTimeSlotEnabled" = None ∧
    payload !! "minimumBookingNoticeInDurationType" =
      values !! "minimumBookingNoticeInDurationType".
Proof.
  intros Hpd. unfold formUpdateInput, member. rewrite Hpd. cbn [mbind Result_bind].
  eexists; split; [reflexivity|].
  repeat split; lookup_payload.
Qed.

(** C10: when [seatsPerTimeSlot] is [null] or [0] the seats/payment rule
    passes whatever the payment option is, so the first four rules alone
    decide what [handleSubmit] does; and the rule throws only for a
    truthy seat count (for a number: not zero, hence strictly positive
    when it is a count) together with the ["HOLD"] option. *)
Theorem seats_check_needs_truthy_seats :
  (∀ values : gmap string JsVal,
     field values "seatsPerTimeSlot" = VNull ∨ field values "seatsPerTimeSlot" = VNum 0 →
     checkSeatsAndPayment values = Ok tt ∧
     runRules validationRules values = runRules formValidationRules values) ∧
  (∀ (values : gmap string JsVal) e,
     checkSeatsAndPayment values = Throw e →
     e = Error (t "seats_and_no_show_fee_error") ∧
     truthy (field values "seatsPerTimeSlot") = true ∧
     opt (opt (opt (field values "metadata") "apps") "stripe") "paymentOption" = VStr "HOLD" ∧
     ∀ n, field values "seatsPerTimeSlot" = VNum n → (n ≠ 0 ∧ (0 ≤ n → 0 < n))%Z).
Proof.
  split.
  - intros values Hseats.
    assert (Hcheck : checkSeatsAndPayment values = Ok tt).
    { unfold checkSeatsAndPayment.
      destruct Hseats as [-> | ->]; cbn [truthy Z.eqb negb]; by rewrite andb_false_r. }
    split; [done|].
    change validationRules with (formValidationRules ++ [checkSeatsAndPayment])%list.
    rewrite runRules_app. destruct (runRules formValidationRules values) as [[]|]; [|done].
    simpl. by rewrite Hcheck.
  - intros values e. unfold checkSeatsAndPayment.
    destruct (strict_eq _ _) eqn:Hhold; cbn [andb]; [|done].
    destruct (truthy _) eqn:Hseats; [|done].
    intros [= <-]. split; [done|]. split; [done|]. split.
    + revert Hhold.
      generalize (opt (opt (opt (field values "metadata") "apps") "stripe") "paymentOption").
      intros []; simpl; try done. by intros ->%String.eqb_eq.
    + intros n Hn. rewrite Hn in Hseats. simpl in Hseats.
      apply negb_true_iff, Z.eqb_neq in Hseats. lia.
Qed.

(** ** What each rule does *)

Lemma checkBookingLimits_absent (values : gmap string JsVal) :
  truthy (field values "bookingLimits") = false → checkBookingLimits values = Ok tt.
Proof. unfold checkBookingLimits. by intros ->. Qed.

Lemma checkDurationLimits_absent (values : gmap string JsVal) :
  truthy (field values "durationLimits") = false → checkDurationLimits values = Ok tt.
Proof. unfold checkDurationLimits. by intros ->. Qed.

Lemma checkBookerLayouts_accepted (values : gmap string JsVal) settings :
  js_or (opt (field values "metadata") "bookerLayouts") VNull = settings →
  validateBookerLayouts settings = None →
  checkBookerLayouts values = Ok tt.
Proof. unfold checkBookerLayouts. by intros -> ->. Qed.

Lemma checkMultipleDuration_absent (values : gmap string JsVal) :
  opt (field values "metadata") "multipleDuration" = VUndefined →
  checkMultipleDuration values = Ok tt.
Proof. unfold checkMultipleDuration. by intros ->. Qed.

(** On a list of durations: empty is an error; otherwise the default
    duration is looked up in the list only when it is falsy. *)
Lemma checkMultipleDuration_list (values : gmap string JsVal) xs :
  opt (field values "metadata") "multipleDuration" = VArr xs →
  checkMultipleDuration values =
    if (Z.of_nat (length xs) <? 1)%Z
    then Throw (Error (t "event_setup_multiple_duration_error"))
    else if truthy (field values "length") then Ok tt
    else if existsb (same_value_zero (field values "length")) xs then Ok tt
    else Throw (Error (t "event_setup_multiple_duration_default_error")).
Proof.
  unfold checkMultipleDuration. intros ->. cbn.
  repeat case_match; done.
Qed.

Lemma checkSeatsAndPayment_hold (values : gmap string JsVal) :
  opt (opt (opt (field values "metadata") "apps") "stripe") "paymentOption" = VStr "HOLD" →
  truthy (field values "seatsPerTimeSlot") = true →
  checkSeatsAndPayment values = Throw (Error (t "seats_and_no_show_fee_error")).
Proof. unfold checkSeatsAndPayment. by intros -> ->. Qed.

Lemma checkSeatsAndPayment_other (values : gmap string JsVal) :
  strict_eq (opt (opt (opt (field values "metadata") "apps") "stripe") "paymentOption")
            (VStr "HOLD") = false →
  checkSeatsAndPayment values = Ok tt.
Proof. unfold checkSeatsAndPayment. by intros ->. Qed.

Lemma validationRules_split (values : gmap string JsVal) :
  runRules validationRules values =
  match runRules formValidationRules values with
  | Ok _ => checkSeatsAndPayment values
  | Throw e => Throw e
  end.
Proof.
  change validationRules with (formValidationRules ++ [checkSeatsAndPayment])%list.
  rewrite runRules_app. destruct (runRules formValidationRules values); [|done].
  simpl. by destruct (checkSeatsAndPayment values) as [[]|].
Qed.

(** C7: the payload is free of the duration-unit selector only on the
    path of the dialog.  For a draft that passes the rules of the form (and has its
    [periodDates] pair), saving the form calls the mutation once, with
    [periodStartDate] and [periodEndDate] the two dates of the pair,
    [periodCountCalendarDays] the boolean "the enumeration value is
    ["1"]" and no [seatsPerTimeSlotEnabled]; but
    [minimumBookingNoticeInDurationType] is sent exactly as the draft
    has it, because the form's handler does not take it out of
    [...input].  [handleSubmit], which takes it out ("We don't need to
    send these values to the backend"), sends the same draft without
    it. *)
Theorem save_path_sends_duration_unit
    (eventType values : gmap string JsVal) (p : Page) :
  runRules formValidationRules values = Ok tt →
  nullish (field values "periodDates") = false →
  ∃ saved,
    formHandleSubmit eventType values p = (Ok tt, withMutation saved p) ∧
    saved !! "periodStartDate" = Some (get (field values "periodDates") "startDate") ∧
    saved !! "periodEndDate" = Some (get (field values "periodDates") "endDate") ∧
    saved !! "periodCountCalendarDays" =
      Some (VBool (strict_eq (field values "periodCountCalendarDays") (VStr "1"))) ∧
    saved !! "seatsPerTimeSlotEnabled" = None ∧
    saved !! "minimumBookingNoticeInDurationType" =
      values !! "minimumBookingNoticeInDurationType" ∧
    (checkSeatsAndPayment values = Ok tt →
     ∃ confirmed,
       handleSubmit eventType values p = (Ok tt, withMutation confirmed p) ∧
       confirmed !! "periodStartDate"
         = Some (get (field values "periodDates") "startDate") ∧
       confirmed !! "periodEndDate"
         = Some (get (field values "periodDates") "endDate") ∧
       confirmed !! "periodCountCalendarDays" =
         Some (VBool (strict_eq (field values "periodCountCalendarDays") (VStr "1"))) ∧
       confirmed !! "minimumBookingNoticeInDurationType" = None ∧
       confirmed !! "seatsPerTimeSlotEnabled" = None).
Proof.
  intros Hrules Hpd.
  destruct (formUpdateInput_period eventType values Hpd) as (saved & Hsaved & Hshape).
  exists saved. split; [by rewrite formHandleSubmit_unfold, Hrules, Hsaved|].
  destruct Hshape as (Hstart & Hend & Hdays & Hseats & Hunit).
  repeat (split; [assumption|]).
  intros Hfifth.
  destruct (updateInput_ok eventType values Hpd) as (confirmed & Hconfirmed & Hok & _).
  exists confirmed. split; [|exact Hok].
  by rewrite handleSubmit_unfold, validationRules_split, Hrules, Hfifth, Hconfirmed.
Qed.

Lemma formRules_pass (values : gmap string JsVal) :
  checkBookingLimits values = Ok tt →
  checkDurationLimits values = Ok tt →
  checkBookerLayouts values = Ok tt →
  checkMultipleDuration values = Ok tt →
  runRules formValidationRules values = Ok tt.
Proof. unfold formValidationRules, runRules. by intros -> -> -> ->. Qed.

(** The first four rules on a draft without limits and without layout
    settings in its metadata. *)
Ltac plain_form_rules Hlayout :=
  apply formRules_pass;
  [ apply checkBookingLimits_absent; by_eval
  | apply checkDurationLimits_absent; by_eval
  | apply (checkBookerLayouts_accepted _ VNull); [by_eval | exact Hlayout]
  | ].

(** *** The default duration *)

Lemma formRules_draftDurationOutsideSet :
  validateBookerLayouts VNull = None →
  runRules formValidationRules draftDurationOutsideSet = Ok tt.
Proof.
  intros Hlayout. plain_form_rules Hlayout.
  by rewrite (checkMultipleDuration_list _ [VNum 15; VNum 45]) by by_eval.
Qed.

(** C1 (the code differs): the draft has default duration 30 and offers
    the durations 15 and 45.  The list does not contain 30, yet both
    submit handlers call the mutation: the default duration is looked up
    only when it is falsy. *)
Theorem default_duration_outside_set_is_sent (eventType : gmap string JsVal) (p : Page) :
  validateBookerLayouts VNull = None →
  field draftDurationOutsideSet "length" = VNum 30 ∧
  opt (field draftDurationOutsideSet "metadata") "multipleDuration"
    = VArr [VNum 15; VNum 45] ∧
  includes (VArr [VNum 15; VNum 45]) (VNum 30) = Ok false ∧
  (∃ payload, handleSubmit eventType draftDurationOutsideSet p
              = (Ok tt, withMutation payload p)) ∧
  (∃ payload, formHandleSubmit eventType draftDurationOutsideSet p
              = (Ok tt, withMutation payload p)).
Proof.
  intros Hlayout.
  pose proof (formRules_draftDurationOutsideSet Hlayout) as Hrules.
  split; [by_eval|]. split; [by_eval|]. split; [by_eval|]. split.
  - destruct (updateInput_ok eventType draftDurationOutsideSet) as (payload & Hp & _);
      [by_eval|].
    exists payload.
    rewrite handleSubmit_unfold, validationRules_split, Hrules, Hp.
    by rewrite checkSeatsAndPayment_other by by_eval.
  - destruct (formUpdateInput_ok eventType draftDurationOutsideSet) as (payload & Hp & _);
      [by_eval|].
    exists payload.
    by rewrite formHandleSubmit_unfold, Hrules, Hp.
Qed.

(** X5: once the three rules before it pass, an empty list of durations
    is rejected by both handlers with the multiple-duration error, and
    the page is left as it was. *)
Lemma empty_duration_set_rejected (eventType values : gmap string JsVal) (p : Page) :
  checkBookingLimits values = Ok tt →
  checkDurationLimits values = Ok tt →
  checkBookerLayouts values = Ok tt →
  opt (field values "metadata") "multipleDuration" = VArr [] →
  handleSubmit eventType values p
    = (Throw (Error (t "event_setup_multiple_duration_error")), p) ∧
  formHandleSubmit eventType values p
    = (Throw (Error (t "event_setup_multiple_duration_error")), p).
Proof.
  intros Hb Hd Hl Hmd.
  assert (Hrules : runRules formValidationRules values
                   = Throw (Error (t "event_setup_multiple_duration_error"))).
  { unfold formValidationRules, runRules. rewrite Hb, Hd, Hl.
    by rewrite (checkMultipleDuration_list _ []). }
  by rewrite handleSubmit_unfold, formHandleSubmit_unfold, validationRules_split, Hrules.
Qed.

(** A default duration missing from a non-empty list is rejected exactly
    when it is falsy ([0], [NaN], [undefined], ...). *)
Lemma default_duration_error_iff (values : gmap string JsVal) x xs :
  opt (field values "metadata") "multipleDuration" = VArr (x :: xs) →
  existsb (same_value_zero (field values "length")) (x :: xs) = false →
  (checkMultipleDuration values
     = Throw (Error (t "event_setup_multiple_duration_default_error"))
   ↔ truthy (field values "length") = false) ∧
  (checkMultipleDuration values = Ok tt ↔ truthy (field values "length") = true).
Proof.
  intros Hmd Hex. rewrite (checkMultipleDuration_list _ _ Hmd), Hex.
  replace (Z.of_nat (length (x :: xs)) <? 1)%Z with false
    by (symmetry; apply Z.ltb_ge; simpl length; lia).
  destruct (truthy (field values "length")); split; split; congruence.
Qed.

(** *** Seats and the payment option *)

Lemma formRules_draftSeatsAndHold :
  validateBookerLayouts VNull = None →
  runRules formValidationRules draftSeatsAndHold = Ok tt.
Proof.
  intros Hlayout. plain_form_rules Hlayout.
  apply checkMultipleDuration_absent. by_eval.
Qed.

(** C3 (the code differs): with five seats per slot and the ["HOLD"]
    payment option, the form's own submit handler calls the mutation,
    seats and payment option included; [handleSubmit], which the dialog
    calls, rejects the same draft. *)
Theorem form_submit_sends_seats_with_hold (eventType : gmap string JsVal) (p : Page) :
  validateBookerLayouts VNull = None →
  (∃ payload,
     formHandleSubmit eventType draftSeatsAndHold p = (Ok tt, withMutation payload p) ∧
     payload !! "seatsPerTimeSlot" = Some (VNum 5) ∧
     opt (opt (opt (default VUndefined (payload !! "metadata")) "apps") "stripe")
         "paymentOption" = VStr "HOLD") ∧
  handleSubmit eventType draftSeatsAndHold p
    = (Throw (Error (t "seats_and_no_show_fee_error")), p).
Proof.
  intros Hlayout.
  pose proof (formRules_draftSeatsAndHold Hlayout) as Hrules. split.
  - destruct (formUpdateInput_ok eventType draftSeatsAndHold)
      as (payload & Hp & _ & _ & _ & _ & Hseats & Hmeta); [by_eval|].
    exists payload. split; [by rewrite formHandleSubmit_unfold, Hrules, Hp|].
    rewrite Hseats, Hmeta. split; by_eval.
  - rewrite handleSubmit_unfold, validationRules_split, Hrules.
    by rewrite checkSeatsAndPayment_hold by by_eval.
Qed.

(** X4: on the path of the dialog the conflict of seats and "HOLD" is
    always an error: whatever else the draft holds, [handleSubmit] throws
    and does not call the mutation; when the four rules before pass, the
    error is the seats/payment one. *)
Lemma handleSubmit_rejects_seats_with_hold (eventType values : gmap string JsVal) (p : Page) :
  opt (opt (opt (field values "metadata") "apps") "stripe") "paymentOption" = VStr "HOLD" →
  truthy (field values "seatsPerTimeSlot") = true →
  (∃ e, handleSubmit eventType values p = (Throw e, p)) ∧
  (runRules formValidationRules values = Ok tt →
   handleSubmit eventType values p
     = (Throw (Error (t "seats_and_no_show_fee_error")), p)).
Proof.
  intros Hhold Hseats.
  rewrite handleSubmit_unfold, validationRules_split,
    (checkSeatsAndPayment_hold _ Hhold Hseats).
  destruct (runRules formValidationRules values) as [[]|e]; split; eauto; done.
Qed.

(** *** The two submit paths *)

Lemma formRules_draftWithUiFields :
  validateBookerLayouts VNull = None →
  runRules formValidationRules draftWithUiFields = Ok tt.
Proof.
  intros Hlayout. plain_form_rules Hlayout.
  apply checkMultipleDuration_absent. by_eval.
Qed.

(** Apart from three keys the two payloads agree: the form's handler
    forwards [minimumBookingNoticeInDurationType] and [bookerLayouts],
    which [handleSubmit] strips, and [handleSubmit] always sets
    [children], which the form's handler forwards only if the draft has
    it. *)
Lemma payloads_agree_elsewhere (eventType values : gmap string JsVal) :
  nullish (field values "periodDates") = false →
  ∃ sent sentByForm,
    updateInput eventType values = Ok sent ∧
    formUpdateInput eventType values = Ok sentByForm ∧
    (∀ k, k ∉ ["minimumBookingNoticeInDurationType"; "bookerLayouts"; "children"] →
          sent !! k = sentByForm !! k) ∧
    sent !! "children" = Some (field values "children") ∧
    sentByForm !! "children" = values !! "children".
Proof.
  intros Hpd. unfold updateInput, formUpdateInput, member. rewrite Hpd.
  cbn [mbind Result_bind].
  eexists; eexists; split; [reflexivity|]. split; [reflexivity|].
  split; [|split; lookup_payload].
  intros k Hk. unfold assign; cbn [foldl fst snd].
  rewrite (lookup_insert_ne _ "children" k) by (intros <-; apply Hk; solve_key).
  repeat (rewrite !lookup_insert; case_decide; [reflexivity|]).
  rewrite !lookup_rest.
  repeat case_decide; try reflexivity; exfalso;
    match goal with
    | Hin : k ∈ _ |- _ =>
        rewrite !elem_of_cons, elem_of_nil in Hin; destruct_or!; subst; try done;
        match goal with Hn : _ ∉ _ |- _ => apply Hn; solve_key end
    end.
Qed.

(** C4 (the code differs): the two submit paths do not run the same
    rules and do not send the same payload.  The draft with seats and
    ["HOLD"] is rejected by [handleSubmit] and sent by the form's
    handler; a draft that passes both is sent by [handleSubmit] without
    [minimumBookingNoticeInDurationType] and [bookerLayouts], and by the
    form's handler with them. *)
Theorem submit_paths_differ (eventType : gmap string JsVal) (p : Page) :
  validateBookerLayouts VNull = None →
  (handleSubmit eventType draftSeatsAndHold p
     = (Throw (Error (t "seats_and_no_show_fee_error")), p) ∧
   ∃ payload, formHandleSubmit eventType draftSeatsAndHold p
              = (Ok tt, withMutation payload p)) ∧
  (∃ sent sentByForm,
     handleSubmit eventType draftWithUiFields p = (Ok tt, withMutation sent p) ∧
     formHandleSubmit eventType draftWithUiFields p = (Ok tt, withMutation sentByForm p) ∧
     sent !! "minimumBookingNoticeInDurationType" = None ∧
     sentByForm !! "minimumBookingNoticeInDurationType" = Some (VNum 2) ∧
     sent !! "bookerLayouts" = None ∧
     is_Some (sentByForm !! "bookerLayouts") ∧
     sent ≠ sentByForm).
Proof.
  intros Hlayout. split.
  - pose proof (formRules_draftSeatsAndHold Hlayout) as Hrules. split.
    + rewrite handleSubmit_unfold, validationRules_split, Hrules.
      by rewrite checkSeatsAndPayment_hold by by_eval.
    + destruct (formUpdateInput_ok eventType draftSeatsAndHold) as (payload & Hp & _);
        [by_eval|].
      exists payload. by rewrite formHandleSubmit_unfold, Hrules, Hp.
  - pose proof (formRules_draftWithUiFields Hlayout) as Hrules.
    destruct (updateInput_ok eventType draftWithUiFields)
      as (sent & Hs & (_ & _ & _ & Hnotice & _) & Hlayouts & _); [by_eval|].
    destruct (formUpdateInput_ok eventType draftWithUiFields)
      as (sentByForm & Hf & Hnotice' & Hlayouts' & _); [by_eval|].
    exists sent, sentByForm.
    assert (Hn : sentByForm !! "minimumBookingNoticeInDurationType" = Some (VNum 2))
      by (rewrite Hnotice'; by_eval).
    repeat split.
    + rewrite handleSubmit_unfold, validationRules_split, Hrules, Hs.
      by rewrite checkSeatsAndPayment_other by by_eval.
    + by rewrite formHandleSubmit_unfold, Hrules, Hf.
    + exact Hnotice.
    + exact Hn.
    + exact Hlayouts.
    + rewrite Hlayouts'. eexists. by_eval.
    + intros ->. congruence.
Qed.

(** ** The confirmation dialog *)

(** A submit handler leaves the page as it was or adds one call of the
    mutation. *)
Lemma handleSubmit_page (eventType values : gmap string JsVal) (p : Page) :
  (handleSubmit eventType values p).2 = p ∨
  ∃ payload, handleSubmit eventType values p = (Ok tt, withMutation payload p).
Proof.
  rewrite handleSubmit_unfold. repeat case_match; eauto.
Qed.

Lemma formHandleSubmit_page (eventType values : gmap string JsVal) (p : Page) :
  (formHandleSubmit eventType values p).2 = p ∨
  ∃ payload, formHandleSubmit eventType values p = (Ok tt, withMutation payload p).
Proof.
  rewrite formHandleSubmit_unfold. repeat case_match; eauto.
Qed.

(** No handler of the page puts a child into the dialog state. *)
Lemma step_dialog (eventType : gmap string JsVal) (ev : Event) (p : Page) :
  slugExistsChildrenDialogOpen (step eventType ev p) = [] ∨
  slugExistsChildrenDialogOpen (step eventType ev p) = slugExistsChildrenDialogOpen p.
Proof.
  destruct ev; cbn [step]; try by left.
  - destruct (formHandleSubmit_page eventType (formValues p) p) as [-> | [payload ->]];
      by right.
  - by right.
  - right. by destruct (field (formValues p) "children").
Qed.

Lemma run_dialog_closed (eventType : gmap string JsVal) (evs : list Event) (p : Page) :
  slugExistsChildrenDialogOpen p = [] →
  slugExistsChildrenDialogOpen (run eventType evs p) = [].
Proof.
  revert p. induction evs as [|ev evs IH]; intros p Hp; [done|].
  cbn [run foldl]. apply IH.
  destruct (step_dialog eventType ev p) as [? | ->]; done.
Qed.

(** C8 (the code differs): the draft's slug, "intro", is among the slugs
    of Alice, the owner of its child event type.  Saving the form sends
    the mutation at once, and the dialog stays closed; in fact no
    sequence of events of the page ever opens the dialog, since its state
    starts empty and is only ever set to the empty list. *)
Theorem slug_collision_never_opens_dialog (eventType : gmap string JsVal) :
  validateBookerLayouts VNull = None →
  (∃ child,
     field draftSlugCollision "children" = VArr [child] ∧
     ownerName child = "Alice" ∧
     includes (get (get child "owner") "eventTypeSlugs")
              (slug eventType (initialPage draftSlugCollision)) = Ok true) ∧
  (∃ payload,
     step eventType FormSubmit (initialPage draftSlugCollision)
       = withMutation payload (initialPage draftSlugCollision)) ∧
  dialogOpen (step eventType FormSubmit (initialPage draftSlugCollision)) = false ∧
  (∀ values evs, dialogOpen (run eventType evs (initialPage values)) = false).
Proof.
  intros Hlayout.
  assert (Hclosed : ∀ values evs,
            dialogOpen (run eventType evs (initialPage values)) = false).
  { intros values evs. unfold dialogOpen. by rewrite run_dialog_closed. }
  split; [eexists; repeat split; by_eval|].
  split; [|split; [apply (Hclosed _ [FormSubmit]) | exact Hclosed]].
  assert (Hrules : runRules formValidationRules draftSlugCollision = Ok tt).
  { plain_form_rules Hlayout. apply checkMultipleDuration_absent. by_eval. }
  destruct (formUpdateInput_ok eventType draftSlugCollision) as (payload & Hp & _);
    [by_eval|].
  exists payload. cbn [step initialPage formValues].
  by rewrite formHandleSubmit_unfold, Hrules, Hp.
Qed.

(** X21: confirming the dialog runs [handleSubmit] once, which calls
    the mutation at most once, and exactly once when the draft passes the
    rules and has its period dates; whether or not it threw, the dialog
    is closed and one telemetry event is logged. *)
Lemma dialog_confirm_mutations (eventType : gmap string JsVal) (p : Page) :
  (mutations (step eventType DialogConfirm p) = mutations p ∨
   ∃ payload, mutations (step eventType DialogConfirm p) = (mutations p ++ [payload])%list) ∧
  (runRules validationRules (formValues p) = Ok tt →
   nullish (field (formValues p) "periodDates") = false →
   ∃ payload, mutations (step eventType DialogConfirm p) = (mutations p ++ [payload])%list) ∧
  slugExistsChildrenDialogOpen (step eventType DialogConfirm p) = [] ∧
  telemetry (step eventType DialogConfirm p)
    = (telemetry p ++ ["slugReplacementAction"])%list.
Proof.
  cbn [step]. split; [|split; [|split; [done|]]].
  - destruct (handleSubmit_page eventType (formValues p) p) as [-> | [payload ->]];
      [by left | right; by exists payload].
  - intros Hrules Hpd.
    destruct (updateInput_ok eventType (formValues p) Hpd) as (payload & Hp & _).
    exists payload. by rewrite handleSubmit_unfold, Hrules, Hp.
  - destruct (handleSubmit_page eventType (formValues p) p) as [-> | [payload ->]]; done.
Qed.

Lemma dialog_close_mutations (eventType : gmap string JsVal) (p : Page) :
  mutations (step eventType DialogOpenChange p) = mutations p ∧
  slugExistsChildrenDialogOpen (step eventType DialogOpenChange p) = [].
Proof. done. Qed.

Lemma string_app_assoc (a b c : string) : (a ++ b) ++ c = a ++ (b ++ c).
Proof.
  induction a as [|x a IH]; [done|].
  change (String x ((a ++ b) ++ c) = String x (a ++ b ++ c)). by f_equal.
Qed.

(** The names in the dialog text. *)
Lemma dialogNames_one (child : JsVal) :
  dialogNames [child] = "  " ++ ownerName child.
Proof. reflexivity. Qed.

Lemma dialogNames_three (a b c : JsVal) :
  dialogNames [a; b; c]
  = ownerName a ++ ", " ++ ownerName b ++ " " ++ t "and" ++ " " ++ ownerName c.
Proof.
  unfold dialogNames. cbn [map removelast join length drop Nat.sub Z.of_nat Z.ltb].
  by rewrite !string_app_assoc.
Qed.

End SubmitProperties.

(** ** Witnesses for the submit properties *)

Lemma submit_aborts_at_first_failure_witness :
  @handleSubmit plainImports exampleEventType draftSeatsAndHold
      (initialPage draftSeatsAndHold)
    = (Throw (Error "seats_and_no_show_fee_error"), initialPage draftSeatsAndHold) ∧
  mutations (@handleSubmit plainImports exampleEventType draftSeatsAndHold
               (initialPage draftSeatsAndHold)).2 = [].
Proof.
  apply (@submit_aborts_at_first_failure plainImports exampleEventType draftSeatsAndHold
           (initialPage draftSeatsAndHold) 4 (@checkSeatsAndPayment plainImports)).
  - reflexivity.
  - vm_compute; reflexivity.
  - repeat constructor; vm_compute; reflexivity.
Defined.

Lemma save_path_sends_duration_unit_witness :
  ∃ saved,
    @formHandleSubmit plainImports exampleEventType draftWithUiFields
        (initialPage draftWithUiFields)
      = (Ok tt, withMutation saved (initialPage draftWithUiFields)) ∧
    saved !! "periodStartDate" = Some (VDate 1700000000000) ∧
    saved !! "periodEndDate" = Some (VDate 1700086400000) ∧
    saved !! "periodCountCalendarDays" = Some (VBool true) ∧
    saved !! "seatsPerTimeSlotEnabled" = None ∧
    saved !! "minimumBookingNoticeInDurationType" = Some (VNum 2) ∧
    ∃ confirmed,
      @handleSubmit plainImports exampleEventType draftWithUiFields
          (initialPage draftWithUiFields)
        = (Ok tt, withMutation confirmed (initialPage draftWithUiFields)) ∧
      confirmed !! "minimumBookingNoticeInDurationType" = None.
Proof.
  destruct (@save_path_sends_duration_unit plainImports exampleEventType
              draftWithUiFields (initialPage draftWithUiFields))
    as (saved & Hsaved & Hstart & Hend & Hdays & Hseats & Hunit & Hconfirm).
  - vm_compute; reflexivity.
  - vm_compute; reflexivity.
  - exists saved. repeat (split; [assumption|]).
    destruct Hconfirm as (confirmed & Hconfirmed & _ & _ & _ & Hnone & _).
    + vm_compute; reflexivity.
    + exists confirmed. by split.
Defined.

Lemma seats_check_needs_truthy_seats_witness :
  (@checkSeatsAndPayment plainImports draftZeroSeatsAndHold = Ok tt ∧
   runRules (@validationRules plainImports) draftZeroSeatsAndHold
     = runRules (@formValidationRules plainImports) draftZeroSeatsAndHold) ∧
  (Error "seats_and_no_show_fee_error" = Error "seats_and_no_show_fee_error" ∧
   truthy (field draftSeatsAndHold "seatsPerTimeSlot") = true ∧
   opt (opt (opt (field draftSeatsAndHold "metadata") "apps") "stripe") "paymentOption"
     = VStr "HOLD" ∧
   ∀ n, field draftSeatsAndHold "seatsPerTimeSlot" = VNum n → (n ≠ 0 ∧ (0 ≤ n → 0 < n))%Z).
Proof.
  split.
  - apply (proj1 (@seats_check_needs_truthy_seats plainImports) draftZeroSeatsAndHold).
    right. vm_compute; reflexivity.
  - apply (proj2 (@seats_check_needs_truthy_seats plainImports) draftSeatsAndHold
             (Error "seats_and_no_show_fee_error")).
    vm_compute; reflexivity.
Defined.

Lemma default_duration_outside_set_is_sent_witness :
  field draftDurationOutsideSet "length" = VNum 30 ∧
  opt (field draftDurationOutsideSet "metadata") "multipleDuration"
    = VArr [VNum 15; VNum 45] ∧
  includes (VArr [VNum 15; VNum 45]) (VNum 30) = Ok false ∧
  (∃ payload, @handleSubmit plainImports exampleEventType draftDurationOutsideSet
                (initialPage draftDurationOutsideSet)
              = (Ok tt, withMutation payload (initialPage draftDurationOutsideSet))) ∧
  (∃ payload, @formHandleSubmit plainImports exampleEventType draftDurationOutsideSet
                (initialPage draftDurationOutsideSet)
              = (Ok tt, withMutation payload (initialPage draftDurationOutsideSet))).
Proof.
  apply (@default_duration_outside_set_is_sent plainImports exampleEventType
           (initialPage draftDurationOutsideSet)).
  reflexivity.
Defined.

Lemma form_submit_sends_seats_with_hold_witness :
  (∃ payload,
     @formHandleSubmit plainImports exampleEventType draftSeatsAndHold
         (initialPage draftSeatsAndHold)
       = (Ok tt, withMutation payload (initialPage draftSeatsAndHold)) ∧
     payload !! "seatsPerTimeSlot" = Some (VNum 5) ∧
     opt (opt (opt (default VUndefined (payload !! "metadata")) "apps") "stripe")
         "paymentOption" = VStr "HOLD") ∧
  @handleSubmit plainImports exampleEventType draftSeatsAndHold
      (initialPage draftSeatsAndHold)
    = (Throw (Error "seats_and_no_show_fee_error"), initialPage draftSeatsAndHold).
Proof.
  apply (@form_submit_sends_seats_with_hold plainImports exampleEventType
           (initialPage draftSeatsAndHold)).
  reflexivity.
Defined.

Lemma submit_paths_differ_witness :
  (@handleSubmit plainImports exampleEventType draftSeatsAndHold
       (initialPage draftSeatsAndHold)
     = (Throw (Error "seats_and_no_show_fee_error"), initialPage draftSeatsAndHold) ∧
   ∃ payload, @formHandleSubmit plainImports exampleEventType draftSeatsAndHold
                (initialPage draftSeatsAndHold)
              = (Ok tt, withMutation payload (initialPage draftSeatsAndHold))) ∧
  (∃ sent sentByForm,
     @handleSubmit plainImports exampleEventType draftWithUiFields
         (initialPage draftSeatsAndHold)
       = (Ok tt, withMutation sent (initialPage draftSeatsAndHold)) ∧
     @formHandleSubmit plainImports exampleEventType draftWithUiFields
         (initialPage draftSeatsAndHold)
       = (Ok tt, withMutation sentByForm (initialPage draftSeatsAndHold)) ∧
     sent !! "minimumBookingNoticeInDurationType" = None ∧
     sentByForm !! "minimumBookingNoticeInDurationType" = Some (VNum 2) ∧
     sent !! "bookerLayouts" = None ∧
     is_Some (sentByForm !! "bookerLayouts") ∧
     sent ≠ sentByForm).
Proof.
  apply (@submit_paths_differ plainImports exampleEventType
           (initialPage draftSeatsAndHold)).
  reflexivity.
Defined.

Lemma slug_collision_never_opens_dialog_witness :
  (∃ child,
     field draftSlugCollision "children" = VArr [child] ∧
     ownerName child = "Alice" ∧
     includes (get (get child "owner") "eventTypeSlugs")
              (slug exampleEventType (initialPage draftSlugCollision)) = Ok true) ∧
  (∃ payload,
     @step plainImports exampleEventType FormSubmit (initialPage draftSlugCollision)
       = withMutation payload (initialPage draftSlugCollision)) ∧
  dialogOpen (@step plainImports exampleEventType FormSubmit
                (initialPage draftSlugCollision)) = false ∧
  (∀ values evs,
     dialogOpen (@run plainImports exampleEventType evs (initialPage values)) = false).
Proof.
  apply (@slug_collision_never_opens_dialog plainImports exampleEventType).
  reflexivity.
Defined.

(** ** Interval limits out of order *)

Lemma bound_truthy limits u a : bound limits u = Some a → truthy limits = true.
Proof. unfold bound. destruct limits, u; simpl; congruence. Qed.

Lemma intervalLimitOrdered_spec limits :
  intervalLimitOrdered limits = true →
  ∀ u v a b, narrower u v = true → bound limits u = Some a → bound limits v = Some b →
    (a ≤ b)%Z.
Proof.
  unfold intervalLimitOrdered. intros Hall u v a b Huv Hu Hv.
  rewrite forallb_forall in Hall.
  assert (Hin : ∀ w, In w periodUnits) by (intros []; simpl; tauto).
  specialize (Hall u (Hin u)). rewrite forallb_forall in Hall.
  specialize (Hall v (Hin v)). rewrite Huv, Hu, Hv in Hall.
  by apply Z.leb_le.
Qed.

Lemma intervalLimitOrdered_violation limits u v a b :
  narrower u v = true → bound limits u = Some a → bound limits v = Some b →
  (b < a)%Z → intervalLimitOrdered limits = false.
Proof.
  intros Huv Hu Hv Hlt.
  destruct (intervalLimitOrdered limits) eqn:Hord; [|done].
  pose proof (intervalLimitOrdered_spec _ Hord _ _ _ _ Huv Hu Hv). lia.
Qed.

(** C2: with the limit validator of the spec, a draft whose booking
    limits or duration limits give a narrower unit a bound greater than
    the bound of a broader unit is rejected by both submit handlers with
    one of the two limit errors, and the page is left as it was: the
    mutation is not called. *)
Theorem limit_order_violation_rejected
    (translate : string → string) (layouts : JsVal → option string)
    (eventType values : gmap string JsVal) (p : Page)
    (limits : JsVal) (u v : PeriodUnit) (a b : Z) :
  field values "bookingLimits" = limits ∨ field values "durationLimits" = limits →
  narrower u v = true →
  bound limits u = Some a →
  bound limits v = Some b →
  (b < a)%Z →
  ∃ e, limitOrderError translate e ∧
    @handleSubmit (specImports translate layouts) eventType values p = (Throw e, p) ∧
    @formHandleSubmit (specImports translate layouts) eventType values p = (Throw e, p).
Proof.
  intros Hlimits Huv Hu Hv Hlt.
  pose proof (bound_truthy _ _ _ Hu) as Htruthy.
  pose proof (intervalLimitOrdered_violation _ _ _ _ _ Huv Hu Hv Hlt) as Hbad.
  assert (Hrules : ∃ e, limitOrderError translate e ∧
            runRules (@formValidationRules (specImports translate layouts)) values
              = Throw e).
  { unfold formValidationRules, runRules, checkBookingLimits, checkDurationLimits.
    cbn [validateIntervalLimitOrder t specImports].
    destruct Hlimits as [-> | Hd].
    - rewrite Htruthy, Hbad. cbn [negb andb]. eexists; split; [by left | done].
    - destruct (truthy (field values "bookingLimits")
                && negb (intervalLimitOrdered (field values "bookingLimits"))).
      + eexists; split; [by left | done].
      + rewrite Hd, Htruthy, Hbad. cbn [negb andb]. eexists; split; [by right | done]. }
  destruct Hrules as (e & He & Hrules). exists e. split; [done|].
  by rewrite handleSubmit_unfold, formHandleSubmit_unfold, validationRules_split, Hrules.
Qed.

Lemma limit_order_violation_rejected_witness :
  ∃ e, limitOrderError (λ key, key) e ∧
    @handleSubmit plainImports exampleEventType draftLimitsOutOfOrder
        (initialPage draftLimitsOutOfOrder)
      = (Throw e, initialPage draftLimitsOutOfOrder) ∧
    @formHandleSubmit plainImports exampleEventType draftLimitsOutOfOrder
        (initialPage draftLimitsOutOfOrder)
      = (Throw e, initialPage draftLimitsOutOfOrder).
Proof.
  apply (limit_order_violation_rejected (λ key, key) (λ _, None) exampleEventType
           draftLimitsOutOfOrder (initialPage draftLimitsOutOfOrder)
           (VObj (obj [("PER_DAY", VNum 10); ("PER_WEEK", VNum 2)])) Day Week 10 2).
  - left. vm_compute; reflexivity.
  - reflexivity.
  - vm_compute; reflexivity.
  - vm_compute; reflexivity.
  - lia.
Defined.

(** ** The draft metadata after initialisation *)

Lemma hostSchedulesFlag_set (m config : gmap string JsVal) flag :
  hostSchedulesFlag
    (VObj (<["config" := VObj (<[hostSchedulesKey := flag]> config)]> m)) = Some flag.
Proof. unfold hostSchedulesFlag. by rewrite !lookup_insert_eq. Qed.

Lemma hostSchedulesFlag_deleted (m config : gmap string JsVal) :
  hostSchedulesFlag (VObj (<["config" := VObj (delete hostSchedulesKey config)]> m)) = None.
Proof. unfold hostSchedulesFlag. by rewrite lookup_insert_eq, lookup_delete_eq. Qed.

Lemma field_insert_eq (o : gmap string JsVal) k v : field (<[k := v]> o) k = v.
Proof. unfold field. by rewrite lookup_insert_eq. Qed.

(** When the page takes the [else] branch the flag is gone. *)
Lemma initMetadata_else (eventType : gmap string JsVal) (team : JsVal) :
  truthy team && negb (strict_eq (field eventType "metadata") VNull) = false →
  ∃ eventType', initMetadata eventType team = Ok eventType' ∧
    hostSchedulesFlag (field eventType' "metadata") = None.
Proof.
  intros Hcond. unfold initMetadata. rewrite Hcond.
  destruct (field eventType "metadata") as [| | | | | | | |m] eqn:Hm;
    try (eexists; split; [reflexivity | by rewrite Hm]).
  destruct (m !! "config") as [[| | | | | | | |config]|] eqn:Hconfig;
    try (eexists; split; [reflexivity | rewrite Hm; unfold hostSchedulesFlag;
                                         by rewrite Hconfig]).
  eexists; split; [reflexivity|].
  by rewrite field_insert_eq, hostSchedulesFlag_deleted.
Qed.

(** C6 (amended): for a record whose metadata is an object or [null],
    initialisation succeeds and afterwards the draft metadata has the key
    [config.useHostSchedulesForTeamEvent] if and only if the record is a
    team event and its metadata is not [null].  For a team event with
    metadata the value is a boolean: [true] exactly when the schedule is
    truthy if the metadata did not set the key, and "the old value is
    [true]" if it did. *)
Theorem host_schedules_flag_after_init (eventType : gmap string JsVal) (team : JsVal) :
  (∃ m, field eventType "metadata" = VObj m) ∨ field eventType "metadata" = VNull →
  ∃ metadata',
    defaultMetadata eventType team = Ok metadata' ∧
    (is_Some (hostSchedulesFlag metadata') ↔
       truthy team = true ∧ field eventType "metadata" ≠ VNull) ∧
    (truthy team = true → field eventType "metadata" ≠ VNull →
       let current := opt (opt (field eventType "metadata") "config") hostSchedulesKey in
       hostSchedulesFlag metadata' =
         Some (VBool (if strict_eq current VUndefined
                      then truthy (field eventType "schedule")
                      else strict_eq current (VBool true)))).
Proof.
  intros Hmeta. unfold defaultMetadata.
  destruct (truthy team && negb (strict_eq (field eventType "metadata") VNull)) eqn:Hcond.
  - apply andb_true_iff in Hcond as [Hteam Hnn].
    destruct Hmeta as [[m Hm] | Hnull]; [|by rewrite Hnull in Hnn].
    unfold initMetadata. rewrite Hteam, Hm. cbn [strict_eq negb andb mbind Result_bind].
    eexists. split; [reflexivity|].
    rewrite field_insert_eq, hostSchedulesFlag_set.
    split; [split; [done | by eauto]|].
    intros _ _. cbn zeta. by destruct (strict_eq _ VUndefined).
  - destruct (initMetadata_else _ _ Hcond) as (eventType' & -> & Hflag).
    cbn [mbind Result_bind]. eexists. split; [reflexivity|]. rewrite Hflag.
    apply andb_false_iff in Hcond.
    split; [split|].
    + by intros [? ?].
    + intros [Hteam Hnn]. destruct Hcond as [Hc | Hc]; [congruence|].
      apply negb_false_iff in Hc.
      destruct (field eventType "metadata"); simpl in Hc; congruence.
    + intros Hteam Hnn. destruct Hcond as [Hc | Hc]; [congruence|].
      apply negb_false_iff in Hc.
      destruct (field eventType "metadata"); simpl in Hc; congruence.
Qed.

Lemma host_schedules_flag_after_init_witness :
  ∃ metadata',
    defaultMetadata recordWithSchedule exampleTeam = Ok metadata' ∧
    (is_Some (hostSchedulesFlag metadata') ↔
       truthy exampleTeam = true ∧ field recordWithSchedule "metadata" ≠ VNull) ∧
    (truthy exampleTeam = true → field recordWithSchedule "metadata" ≠ VNull →
       let current :=
         opt (opt (field recordWithSchedule "metadata") "config") hostSchedulesKey in
       hostSchedulesFlag metadata' =
         Some (VBool (if strict_eq current VUndefined
                      then truthy (field recordWithSchedule "schedule")
                      else strict_eq current (VBool true)))).
Proof.
  apply (host_schedules_flag_after_init recordWithSchedule exampleTeam).
  left. exists ∅. vm_compute; reflexivity.
Defined.

(** C6 as stated fails: a team event whose record has [null] metadata
    gets no flag; and with schedule [0], which is not [null], the flag is
    [false]. *)
Lemma team_event_without_metadata_has_no_flag :
  (truthy exampleTeam = true ∧
   defaultMetadata recordWithoutMetadata exampleTeam = Ok VNull ∧
   hostSchedulesFlag VNull = None) ∧
  (field recordWithScheduleZero "schedule" = VNum 0 ∧
   opt (opt (field recordWithScheduleZero "metadata") "config") hostSchedulesKey
     = VUndefined ∧
   ∃ metadata', defaultMetadata recordWithScheduleZero exampleTeam = Ok metadata' ∧
     hostSchedulesFlag metadata' = Some (VBool false)).
Proof.
  repeat split; try by_eval.
  eexists. split; by_eval.
Qed.

Lemma opt_obj (o : gmap string JsVal) k : opt (VObj o) k = default VUndefined (o !! k).
Proof. reflexivity. Qed.

Lemma opt_config_flag (m config : gmap string JsVal) flag :
  opt (opt (VObj (<["config" := VObj (<[hostSchedulesKey := flag]> config)]> m)) "config")
      hostSchedulesKey = flag.
Proof.
  rewrite opt_obj, lookup_insert_eq. cbn [from_option id].
  by rewrite opt_obj, lookup_insert_eq.
Qed.

(** X12: rendering again does not change the flag: the first render
    wrote it into the record, which the draft shares, so initialising the
    initialised record succeeds and leaves the flag as it is. *)
Lemma initMetadata_idempotent (eventType eventType' : gmap string JsVal) (team : JsVal) :
  initMetadata eventType team = Ok eventType' →
  ∃ eventType'', initMetadata eventType' team = Ok eventType'' ∧
    hostSchedulesFlag (field eventType'' "metadata")
      = hostSchedulesFlag (field eventType' "metadata").
Proof.
  unfold initMetadata at 1.
  destruct (truthy team && negb (strict_eq (field eventType "metadata") VNull)) eqn:Hcond.
  - destruct (field eventType "metadata") as [| | | | | | | |m]; try done.
    set (flag := if negb _ then _ else _).
    intros [= <-]. unfold initMetadata.
    apply andb_true_iff in Hcond as [-> _].
    rewrite !field_insert_eq. cbn [strict_eq negb andb].
    eexists. split; [reflexivity|].
    rewrite field_insert_eq, !hostSchedulesFlag_set, opt_config_flag.
    by destruct flag.
  - assert (Hcond' : ∀ m, field eventType "metadata" = VObj m →
              ∀ m', truthy team && negb (strict_eq (VObj m') VNull) = false).
    { intros m Hm m'. rewrite Hm in Hcond. by destruct (truthy team). }
    destruct (field eventType "metadata") as [| | | | | | | |m] eqn:Hm;
      try (intros [= <-]; unfold initMetadata; rewrite Hm, Hcond;
           eexists; split; [reflexivity | by rewrite Hm]).
    destruct (m !! "config") as [[| | | | | | | |config]|] eqn:Hconfig;
      try (intros [= <-]; unfold initMetadata; rewrite Hm, Hcond, Hconfig;
           eexists; split; [reflexivity | by rewrite Hm]).
    intros [= <-]. unfold initMetadata. rewrite !field_insert_eq.
    rewrite (Hcond' m eq_refl), lookup_insert_eq. eexists. split; [reflexivity|].
    by rewrite field_insert_eq, !hostSchedulesFlag_deleted.
Qed.


(** ** Tabs *)

(** C9: the tab name of the query defaults to [setup] when absent, and
    each name of the enumeration parses to its tab; [tabMap] has exactly
    one view for each of the nine tabs, different tabs have different
    views, and looking a tab up is a function of the tab name alone: two
    lookups give the same view. *)
Theorem tab_selection :
  parseTabName None = Some setup ∧
  Forall (λ entry, parseTabName (Some entry.1) = Some entry.2) tabNames ∧
  (∀ tab, tab ∈ tabNames.*2) ∧
  length tabNames = 9%nat ∧
  (∀ tab, is_Some (selectTab tab)) ∧
  NoDup (selectTab <$> tabNames.*2) ∧
  (∀ tab view view', selectTab tab = Some view → selectTab tab = Some view' → view = view').
Proof.
  split; [done|]. split; [by repeat constructor|].
  split; [intros []; solve_key|].
  split; [done|]. split; [by intros []; eexists|]. split.
  - apply (bool_decide_unpack _). by vm_compute.
  - intros tab view view' ->. by intros [= ->].
Qed.

Lemma tab_selection_witness :
  default EventSetupTab (selectTab limits) = EventLimitsTab.
Proof.
  destruct tab_selection as (_ & _ & _ & _ & _ & _ & Hsame).
  apply (Hsame limits); reflexivity.
Defined.

(** * Further properties of the page *)

(** Evidence that a concrete key is outside a list of key literals. *)
Ltac key_outside H := intros <-; apply H; solve_key.

Section HandlerProperties.
Context `{!Imports}.

(** ** What the submit handlers leave alone *)

(** X1: a submit handler never changes the draft, the dialog state or
    the telemetry log.  Either it returns and has called the mutation
    exactly once, or it throws and has called nothing. *)
Theorem submit_handlers_frame (eventType values : gmap string JsVal) (p : Page) :
  let after := handleSubmit eventType values p in
  let afterForm := formHandleSubmit eventType values p in
  (formValues after.2 = formValues p ∧
   slugExistsChildrenDialogOpen after.2 = slugExistsChildrenDialogOpen p ∧
   telemetry after.2 = telemetry p ∧
   ((after.1 = Ok tt ∧ ∃ payload, mutations after.2 = (mutations p ++ [payload])%list) ∨
    (∃ e, after.1 = Throw e ∧ mutations after.2 = mutations p))) ∧
  (formValues afterForm.2 = formValues p ∧
   slugExistsChildrenDialogOpen afterForm.2 = slugExistsChildrenDialogOpen p ∧
   telemetry afterForm.2 = telemetry p ∧
   ((afterForm.1 = Ok tt ∧
     ∃ payload, mutations afterForm.2 = (mutations p ++ [payload])%list) ∨
    (∃ e, afterForm.1 = Throw e ∧ mutations afterForm.2 = mutations p))).
Proof.
  cbn zeta. rewrite handleSubmit_unfold, formHandleSubmit_unfold. split.
  - destruct (runRules validationRules values) as [[]|e]; [|by eauto 10].
    destruct (updateInput eventType values) as [payload|e]; [|by eauto 10].
    repeat split; try done. left. split; [done | by exists payload].
  - destruct (runRules formValidationRules values) as [[]|e]; [|by eauto 10].
    destruct (formUpdateInput eventType values) as [payload|e]; [|by eauto 10].
    repeat split; try done. left. split; [done | by exists payload].
Qed.

(** ** What reaches the backend *)

Lemma updateInput_lookup (eventType values : gmap string JsVal) :
  nullish (field values "periodDates") = false →
  ∃ payload, updateInput eventType values = Ok payload ∧
    (∀ k, k ∉ payloadWritten → k ≠ "children" →
          payload !! k = if decide (k ∈ handleSubmitTaken) then None else values !! k) ∧
    payload !! "id" = Some (field eventType "id") ∧
    payload !! "beforeEventBuffer" = Some (field values "beforeBufferTime") ∧
    payload !! "afterEventBuffer" = Some (field values "afterBufferTime").
Proof.
  intros Hpd. unfold updateInput, member. rewrite Hpd. cbn [mbind Result_bind].
  eexists; split; [reflexivity|]. unfold assign; cbn [foldl fst snd].
  split; [|repeat split; repeat (rewrite lookup_insert_ne by done);
             by rewrite lookup_insert_eq].
  intros k Hk Hchildren.
  rewrite lookup_insert_ne by done.
  repeat (rewrite lookup_insert_ne by key_outside Hk).
  apply lookup_rest.
Qed.

(** X2: when [handleSubmit] sends a draft, every field of the draft that
    it neither takes out nor writes itself reaches the backend unchanged,
    whatever its name; of the fields it takes out, those it does not
    write back are not sent; and [id] and the two buffers are written
    from the record and from [beforeBufferTime] and [afterBufferTime],
    whatever the draft holds under the payload's names. *)
Theorem handleSubmit_payload_passthrough
    (eventType values : gmap string JsVal) (p : Page) :
  runRules validationRules values = Ok tt →
  nullish (field values "periodDates") = false →
  ∃ payload,
    handleSubmit eventType values p = (Ok tt, withMutation payload p) ∧
    (∀ k, k ∉ handleSubmitTaken → k ∉ payloadWritten → payload !! k = values !! k) ∧
    (∀ k, k ∈ handleSubmitTaken → k ∉ payloadWritten → k ≠ "children" →
          payload !! k = None) ∧
    payload !! "id" = Some (field eventType "id") ∧
    payload !! "beforeEventBuffer" = Some (field values "beforeBufferTime") ∧
    payload !! "afterEventBuffer" = Some (field values "afterBufferTime").
Proof.
  intros Hrules Hpd.
  destruct (updateInput_lookup eventType values Hpd) as (payload & Hp & Hk & Hrest).
  exists payload. split; [by rewrite handleSubmit_unfold, Hrules, Hp|].
  split; [|split; [|exact Hrest]].
  - intros k Htaken Hwritten. rewrite Hk; [by rewrite decide_False | done |].
    intros ->. apply Htaken. solve_key.
  - intros k Htaken Hwritten Hchildren. rewrite Hk by done. by rewrite decide_True.
Qed.

(** X3: on a draft that passes the seats rule the two submit paths end
    alike: both throw the same error, or both call the mutation, with
    payloads that agree on every key but three.  [handleSubmit] sends
    neither [minimumBookingNoticeInDurationType] nor [bookerLayouts] and
    always sends [children]; the form's handler forwards the three as
    the draft has them. *)
Theorem submit_paths_agree_but_for_three_keys
    (eventType values : gmap string JsVal) (p : Page) :
  checkSeatsAndPayment values = Ok tt →
  (∃ e, handleSubmit eventType values p = (Throw e, p) ∧
        formHandleSubmit eventType values p = (Throw e, p)) ∨
  (∃ sent sentByForm,
     handleSubmit eventType values p = (Ok tt, withMutation sent p) ∧
     formHandleSubmit eventType values p = (Ok tt, withMutation sentByForm p) ∧
     (∀ k, k ∉ ["minimumBookingNoticeInDurationType"; "bookerLayouts"; "children"] →
           sent !! k = sentByForm !! k) ∧
     sent !! "minimumBookingNoticeInDurationType" = None ∧
     sent !! "bookerLayouts" = None ∧
     sent !! "children" = Some (field values "children") ∧
     sentByForm !! "minimumBookingNoticeInDurationType"
       = values !! "minimumBookingNoticeInDurationType" ∧
     sentByForm !! "bookerLayouts" = values !! "bookerLayouts" ∧
     sentByForm !! "children" = values !! "children").
Proof.
  intros Hseats.
  rewrite handleSubmit_unfold, formHandleSubmit_unfold, validationRules_split, Hseats.
  destruct (runRules formValidationRules values) as [[]|e]; [|left; by exists e].
  destruct (nullish (field values "periodDates")) eqn:Hpd.
  - left. exists TypeError. unfold updateInput, formUpdateInput, member.
    by rewrite Hpd.
  - right.
    destruct (payloads_agree_elsewhere eventType values Hpd)
      as (sent & sentByForm & Hs & Hf & Hagree & Hchildren & Hchildren').
    destruct (updateInput_ok eventType values Hpd)
      as (sent' & Hs' & (_ & _ & _ & Hnotice & _) & Hlayouts & _).
    destruct (formUpdateInput_ok eventType values Hpd)
      as (sentByForm' & Hf' & Hnotice' & Hlayouts' & _).
    rewrite Hs in Hs'. rewrite Hf in Hf'.
    assert (sent' = sent) as -> by congruence.
    assert (sentByForm' = sentByForm) as -> by congruence.
    exists sent, sentByForm. rewrite Hs, Hf. by repeat split.
Qed.

(** ** The rules on their own *)

(** X6: with a non-empty list of durations, and the three rules before it
    passed, the default duration decides alone when it is truthy: the
    draft passes the multiple-duration rule whatever the list holds.  The
    list is consulted only for a falsy default duration: then both
    handlers throw the default-duration error unless the list contains
    that value. *)
Theorem duration_default_checked_only_when_falsy
    (eventType values : gmap string JsVal) (p : Page) x xs :
  checkBookingLimits values = Ok tt →
  checkDurationLimits values = Ok tt →
  checkBookerLayouts values = Ok tt →
  opt (field values "metadata") "multipleDuration" = VArr (x :: xs) →
  (truthy (field values "length") = true →
     runRules formValidationRules values = Ok tt) ∧
  (truthy (field values "length") = false →
     existsb (same_value_zero (field values "length")) (x :: xs) = true →
     runRules formValidationRules values = Ok tt) ∧
  (truthy (field values "length") = false →
     existsb (same_value_zero (field values "length")) (x :: xs) = false →
     handleSubmit eventType values p
       = (Throw (Error (t "event_setup_multiple_duration_default_error")), p) ∧
     formHandleSubmit eventType values p
       = (Throw (Error (t "event_setup_multiple_duration_default_error")), p)).
Proof.
  intros Hb Hd Hl Hmd.
  pose proof (checkMultipleDuration_list values (x :: xs) Hmd) as Hcheck.
  replace (Z.of_nat (length (x :: xs)) <? 1)%Z with false in Hcheck
    by (symmetry; apply Z.ltb_ge; simpl length; lia).
  assert (Hrun : runRules formValidationRules values = checkMultipleDuration values).
  { unfold formValidationRules, runRules. rewrite Hb, Hd, Hl.
    by destruct (checkMultipleDuration values) as [[]|]. }
  rewrite handleSubmit_unfold, formHandleSubmit_unfold, validationRules_split, Hrun, Hcheck.
  split; [by intros ->|]. split; [by intros -> ->|]. by intros -> ->.
Qed.

(** X7: a draft without its [periodDates] pair is never sent.  The rules
    run first; when they pass, reading [periodDates.startDate] throws a
    [TypeError] before the mutation is called, in both handlers. *)
Theorem submit_without_period_dates_throws
    (eventType values : gmap string JsVal) (p : Page) :
  nullish (field values "periodDates") = true →
  (runRules validationRules values = Ok tt →
     handleSubmit eventType values p = (Throw TypeError, p)) ∧
  (runRules formValidationRules values = Ok tt →
     formHandleSubmit eventType values p = (Throw TypeError, p)) ∧
  (∃ e, handleSubmit eventType values p = (Throw e, p)) ∧
  (∃ e, formHandleSubmit eventType values p = (Throw e, p)).
Proof.
  intros Hpd.
  assert (Hu : updateInput eventType values = Throw TypeError)
    by (unfold updateInput, member; by rewrite Hpd).
  assert (Hf : formUpdateInput eventType values = Throw TypeError)
    by (unfold formUpdateInput, member; by rewrite Hpd).
  rewrite handleSubmit_unfold, formHandleSubmit_unfold, Hu, Hf.
  split; [by intros ->|]. split; [by intros ->|].
  split; [destruct (runRules validationRules values) as [[]|e]
         | destruct (runRules formValidationRules values) as [[]|e]]; eauto.
Qed.

End HandlerProperties.

Section MachineProperties.
Context `{!Imports}.

(** ** The page over a sequence of events *)

Ltac logs_done := rewrite ?app_nil_r; repeat split; first [done | lia].

Lemma step_logs (eventType : gmap string JsVal) (ev : Event) (p : Page) :
  ∃ sent,
    mutations (step eventType ev p) = (mutations p ++ sent)%list ∧
    (length sent ≤ if isSubmit ev then 1 else 0)%nat ∧
    telemetry (step eventType ev p)
      = (telemetry p ++ if isConfirm ev then ["slugReplacementAction"] else [])%list.
Proof.
  destruct ev; cbn [step isSubmit isConfirm].
  - destruct (formHandleSubmit_page eventType (formValues p) p) as [-> | [payload ->]];
      [exists [] | exists [payload]]; cbn; logs_done.
  - destruct (handleSubmit_page eventType (formValues p) p) as [-> | [payload ->]];
      [exists [] | exists [payload]]; cbn; logs_done.
  - exists []. cbn. logs_done.
  - exists []. cbn. logs_done.
  - exists []. destruct (field (formValues p) "children"); cbn; logs_done.
Qed.

(** X8: the log of mutation calls only grows, by at most one call for
    each save of the form or confirmation of the dialog and by none for
    any other event; and the telemetry log grows by exactly one
    "slugReplacementAction" for each confirmation. *)
Theorem mutation_log_append_only
    (eventType : gmap string JsVal) (evs : list Event) (p : Page) :
  ∃ sent,
    mutations (run eventType evs p) = (mutations p ++ sent)%list ∧
    (length sent ≤ length (filter (λ ev, isSubmit ev = true) evs))%nat ∧
    telemetry (run eventType evs p)
      = (telemetry p
         ++ replicate (length (filter (λ ev, isConfirm ev = true) evs))
                      "slugReplacementAction")%list.
Proof.
  revert p. induction evs as [|ev evs IH]; intros p.
  - exists []. cbn. logs_done.
  - cbn [run foldl]. fold (run eventType evs (step eventType ev p)).
    destruct (step_logs eventType ev p) as (sent1 & Hm1 & Hlen1 & Ht1).
    destruct (IH (step eventType ev p)) as (sent & Hm & Hlen & Ht).
    exists (sent1 ++ sent)%list.
    rewrite Hm, Hm1, Ht, Ht1, <- !(assoc_L (++)), length_app, !filter_cons.
    split; [done|].
    destruct ev; cbn [isSubmit isConfirm] in *;
      repeat case_decide; try done; cbn [length replicate app] in *;
      (split; [lia | by rewrite ?app_nil_r]).
Qed.

(** The draft after one event, as a function of the draft before. *)
Lemma step_draft (eventType : gmap string JsVal) (ev : Event) (p q : Page) :
  formValues p = formValues q →
  formValues (step eventType ev p)
  = if writesDraft ev then formValues (step eventType ev q) else formValues q.
Proof.
  intros Hpq. destruct ev; cbn [step writesDraft].
  - by destruct (formHandleSubmit_page eventType (formValues p) p) as [-> | [payload ->]].
  - by destruct (handleSubmit_page eventType (formValues p) p) as [-> | [payload ->]].
  - done.
  - cbn. by rewrite Hpq.
  - rewrite Hpq. by destruct (field (formValues q) "children"); cbn; rewrite ?Hpq.
Qed.

(** X9: submissions never influence the draft: after any sequence of
    events the draft is what the field changes and mutation successes
    alone would have made it, whether the saves and confirmations in
    between succeeded or threw. *)
Theorem draft_ignores_submissions
    (eventType : gmap string JsVal) (evs : list Event) (p : Page) :
  formValues (run eventType evs p)
  = formValues (run eventType (filter (λ ev, writesDraft ev = true) evs) p).
Proof.
  enough (Hgen : ∀ p q, formValues p = formValues q →
            formValues (run eventType evs p)
            = formValues (run eventType (filter (λ ev, writesDraft ev = true) evs) q))
    by by apply Hgen.
  induction evs as [|ev evs IH]; intros p' q Hpq; [done|].
  cbn [run foldl]. fold (run eventType evs (step eventType ev p')).
  rewrite filter_cons. pose proof (step_draft eventType ev p' q Hpq) as Hstep.
  destruct (writesDraft ev) eqn:Hw.
  - rewrite decide_True by done. cbn [run foldl]. by apply IH.
  - rewrite decide_False by done. by apply IH.
Qed.

(** ** After a successful mutation *)

(** X10: [onSuccess] marks every child of the draft as created, object
    by object, and changes nothing else: the number of children, the
    other fields of each child, the other fields of the draft and the
    logs stay as they were; and running it again changes nothing. *)
Theorem mutation_success_marks_children
    (eventType : gmap string JsVal) (p : Page) (children : list JsVal) :
  field (formValues p) "children" = VArr children →
  let p' := step eventType MutationSuccess p in
  ∃ children',
    field (formValues p') "children" = VArr children' ∧
    length children' = length children ∧
    Forall (λ child, get child "created" = VBool true) children' ∧
    (∀ i o, children !! i = Some (VObj o) →
            children' !! i = Some (VObj (<["created" := VBool true]> o))) ∧
    (∀ k, k ≠ "children" → formValues p' !! k = formValues p !! k) ∧
    mutations p' = mutations p ∧
    telemetry p' = telemetry p ∧
    slugExistsChildrenDialogOpen p' = slugExistsChildrenDialogOpen p ∧
    step eventType MutationSuccess p' = p'.
Proof.
  intros Hchildren. cbn zeta. cbn [step]. rewrite Hchildren.
  set (mark := λ child, VObj (<["created" := VBool true]> (spread child))).
  exists (map mark children).
  assert (Hmark : ∀ child, mark (mark child) = mark child).
  { intros child. unfold mark. cbn [spread]. by rewrite insert_insert_eq. }
  repeat split.
  - cbn. unfold field. by rewrite lookup_insert_eq.
  - by rewrite length_map.
  - apply Forall_forall. intros child (child0 & -> & _)%list_elem_of_fmap.
    unfold mark. cbn [get]. by rewrite lookup_insert_eq.
  - intros i o Hi. by rewrite list_lookup_fmap, Hi.
  - intros k Hk. cbn. by rewrite lookup_insert_ne.
  - cbn [setValue formValues]. unfold field. rewrite lookup_insert_eq. cbn [default from_option].
    unfold setValue. cbn. rewrite insert_insert_eq.
    rewrite <- list_fmap_compose.
    f_equal. f_equal. f_equal. apply list_fmap_ext. intros _ child _. apply Hmark.
Qed.

End MachineProperties.

(** ** Initialising the metadata changes nothing else *)

(** X11: initialising the metadata writes only
    [metadata.config.useHostSchedulesForTeamEvent]: every other field of
    the record, every other field of its metadata and, when the config
    is an object, every other field of the config is as before. *)
Theorem initMetadata_frame (eventType eventType' : gmap string JsVal) (team : JsVal) :
  initMetadata eventType team = Ok eventType' →
  (∀ k, k ≠ "metadata" → eventType' !! k = eventType !! k) ∧
  (∀ k, k ≠ "config" →
        get (field eventType' "metadata") k = get (field eventType "metadata") k) ∧
  (∀ config k, get (field eventType "metadata") "config" = VObj config →
        k ≠ hostSchedulesKey →
        get (get (field eventType' "metadata") "config") k = get (VObj config) k).
Proof.
  unfold initMetadata.
  destruct (truthy team && negb (strict_eq (field eventType "metadata") VNull)).
  - destruct (field eventType "metadata") as [| | | | | | | |m] eqn:Hm; try done.
    set (flag := if negb _ then _ else _). intros [= <-].
    rewrite field_insert_eq. split; [|split].
    + intros k Hk. by rewrite lookup_insert_ne.
    + intros k Hk. cbn [get]. by rewrite lookup_insert_ne.
    + intros config k Hconfig Hk. cbn [get] in *.
      rewrite lookup_insert_eq. cbn [default from_option id get].
      rewrite Hconfig. cbn [spread]. by rewrite lookup_insert_ne.
  - destruct (field eventType "metadata") as [| | | | | | | |m] eqn:Hm;
      try (intros [= <-]; rewrite Hm; repeat split; congruence).
    destruct (m !! "config") as [[| | | | | | | |config]|] eqn:Hconfig;
      try (intros [= <-]; rewrite Hm; repeat split; congruence).
    intros [= <-]. rewrite field_insert_eq. split; [|split].
    + intros k Hk. by rewrite lookup_insert_ne.
    + intros k Hk. cbn [get]. by rewrite lookup_insert_ne.
    + intros config' k Hconfig' Hk. cbn [get] in *.
      rewrite Hconfig in Hconfig'. cbn in Hconfig'. injection Hconfig' as <-.
      rewrite lookup_insert_eq. cbn [default from_option id get].
      by rewrite lookup_delete_ne.
Qed.

(** ** The children of the draft *)

Lemma mapResult_Forall2 {A B} (f : A → Result B) (l : list A) (l' : list B) :
  mapResult f l = Ok l' → Forall2 (λ x y, f x = Ok y) l l'.
Proof.
  revert l'. induction l as [|x l IH]; intros l'; cbn [mapResult].
  - intros [= <-]. constructor.
  - destruct (f x) as [y|] eqn:Hx; [|done]. cbn [mbind Result_bind].
    destruct (mapResult f l) as [ys|]; [|done]. cbn [mbind Result_bind].
    intros [= <-]. constructor; auto.
Qed.

Lemma memberSlugs_array (eventType : gmap string JsVal) (ch slugs : JsVal) :
  memberSlugs eventType ch = Ok slugs →
  ∃ kept, slugs = VArr kept ∧
    Forall (λ s, strict_eq s (field eventType "slug") = false) kept ∧
    (nullish (field eventType "team") = true → kept = []).
Proof.
  unfold memberSlugs. destruct (nullish (field eventType "team")).
  - intros [= <-]. by exists [].
  - destruct (arrayItems _) as [members|]; [|done]. cbn [mbind Result_bind].
    destruct (findResult _ members) as [found|]; [|done]. cbn [mbind Result_bind].
    destruct (nullish found); [intros [= <-]; by exists [] |].
    destruct (member _ "eventTypes") as [eventTypes|]; [|done]. cbn [mbind Result_bind].
    destruct (arrayItems eventTypes) as [items|]; [|done]. cbn [mbind Result_bind].
    destruct (mapResult _ items) as [all|]; [|done]. cbn [mbind Result_bind].
    intros [= <-]. eexists. split; [reflexivity|]. split; [|done].
    apply Forall_forall. by intros s [Hs _]%list_elem_of_filter.
Qed.

Lemma defaultValues_children (eventType periodDates draft : gmap string JsVal) metadata :
  defaultValues eventType periodDates metadata = Ok draft →
  ∃ items children,
    field eventType "children" = VArr items ∧
    mapResult (defaultChild eventType) items = Ok children ∧
    draft = assign ∅
      [("title", field eventType "title");
       ("locations", js_or (field eventType "locations") (VArr []));
       ("recurringEvent", js_or (field eventType "recurringEvent") VNull);
       ("description", js_coalesce (field eventType "description") VUndefined);
       ("schedule", js_or (field eventType "schedule") VUndefined);
       ("bookingLimits", js_or (field eventType "bookingLimits") VUndefined);
       ("durationLimits", js_or (field eventType "durationLimits") VUndefined);
       ("length", field eventType "length");
       ("hidden", field eventType "hidden");
       ("periodDates",
        VObj (assign ∅ [("startDate", field periodDates "startDate");
                        ("endDate", field periodDates "endDate")]));
       ("bookingFields", field eventType "bookingFields");
       ("periodType", field eventType "periodType");
       ("periodCountCalendarDays",
        if truthy (field eventType "periodCountCalendarDays") then VStr "1" else VStr "0");
       ("schedulingType", field eventType "schedulingType");
       ("minimumBookingNotice", field eventType "minimumBookingNotice");
       ("metadata", metadata);
       ("hosts", field eventType "hosts");
       ("children", VArr children)].
Proof.
  unfold defaultValues.
  destruct (field eventType "children") as [| | | | | | |items|] eqn:Hitems; try done.
  cbn [arrayItems mbind Result_bind].
  destruct (mapResult (defaultChild eventType) items) as [children|] eqn:Hmap; [|done].
  cbn [mbind Result_bind]. intros Hdraft. exists items, children.
  split; [done|]. split; [done|]. congruence.
Qed.

Lemma defaultChild_shape (eventType : gmap string JsVal) (ch child : JsVal) :
  defaultChild eventType ch = Ok child →
  get child "created" = VBool true ∧
  ∃ slugs,
    get (get child "owner") "eventTypeSlugs" = VArr slugs ∧
    Forall (λ s, strict_eq s (field eventType "slug") = false) slugs ∧
    (nullish (field eventType "team") = true → slugs = []).
Proof.
  unfold defaultChild.
  destruct (member ch "owner") as [owner|]; [|done]. cbn [mbind Result_bind].
  destruct (memberSlugs eventType ch) as [slugs|] eqn:Hslugs; [|done].
  cbn [mbind Result_bind]. intros [= <-].
  destruct (memberSlugs_array _ _ _ Hslugs) as (kept & -> & Hkept & Hteam).
  unfold assign; cbn [foldl fst snd get]. split.
  - by rewrite lookup_insert_ne, lookup_insert_eq.
  - exists kept. rewrite lookup_insert_eq. cbn [default from_option id get].
    by rewrite lookup_insert_eq.
Qed.

(** Lookup in the draft that [defaultValues] builds. *)
Ltac lookup_draft :=
  unfold field, assign; cbn [foldl fst snd];
  repeat (rewrite lookup_insert_ne by done);
  first [ by rewrite lookup_insert_eq | by rewrite lookup_empty ].

Lemma member_ok (v r : JsVal) (k : string) :
  member v k = Ok r → nullish v = false ∧ r = get v k.
Proof. unfold member. destruct (nullish v); [done|]. by intros [= <-]. Qed.

(** When [find] returns, it returns the first member that owns the
    child, or [undefined]. *)
Lemma findResult_owner (ch found : JsVal) (members : list JsVal) :
  findResult (λ mem,
      user ← member mem "user";
      userId ← member user "id";
      ownerId ← member (get ch "owner") "id";
      Ok (strict_eq userId ownerId)) members = Ok found →
  match List.find (ownsChild ch) members with
  | Some mem => found = mem ∧ nullish mem = false
  | None => found = VUndefined
  end.
Proof.
  induction members as [|mem members IH]; [by intros [= <-]|].
  cbn [findResult List.find].
  destruct (member mem "user") as [user|] eqn:Huser; [|done].
  apply member_ok in Huser as [Hmem ->]. cbn [mbind Result_bind].
  destruct (member (get mem "user") "id") as [userId|] eqn:Hid; [|done].
  apply member_ok in Hid as [_ ->]. cbn [mbind Result_bind].
  destruct (member (get ch "owner") "id") as [ownerId|] eqn:Howner; [|done].
  apply member_ok in Howner as [_ ->]. cbn [mbind Result_bind].
  fold (ownsChild ch mem). destruct (ownsChild ch mem); [|exact IH].
  by intros [= <-].
Qed.

Lemma mapResult_member (k : string) (items slugs : list JsVal) :
  mapResult (λ evTy, member evTy k) items = Ok slugs →
  slugs = map (λ evTy, get evTy k) items.
Proof.
  revert slugs. induction items as [|evTy items IH]; intros slugs; [by intros [= <-]|].
  cbn [mapResult map].
  destruct (member evTy k) as [slug|] eqn:Hslug; [|done].
  apply member_ok in Hslug as [_ ->]. cbn [mbind Result_bind].
  destruct (mapResult _ items) as [rest|]; [|done]. cbn [mbind Result_bind].
  intros [= <-]. by rewrite (IH rest).
Qed.

(** The slugs are those of the event types of the first member that
    owns the child, in their order, without the slug of this event
    type. *)
Lemma memberSlugs_owner (eventType : gmap string JsVal) (ch slugs : JsVal)
    (members : list JsVal) :
  memberSlugs eventType ch = Ok slugs →
  get (field eventType "team") "members" = VArr members →
  match List.find (ownsChild ch) members with
  | Some mem =>
      ∃ evTys, get (get mem "user") "eventTypes" = VArr evTys ∧
        slugs = VArr (filter (λ slug, strict_eq slug (field eventType "slug") = false)
                             (map (λ evTy, get evTy "slug") evTys))
  | None => slugs = VArr []
  end.
Proof.
  unfold memberSlugs. intros Hslugs Hmembers. rewrite Hmembers in Hslugs.
  destruct (nullish (field eventType "team")) eqn:Hteam.
  { by destruct (field eventType "team"). }
  cbn [arrayItems mbind Result_bind] in Hslugs.
  destruct (findResult _ members) as [found|] eqn:Hfound; [|done].
  cbn [mbind Result_bind] in Hslugs.
  apply findResult_owner in Hfound.
  destruct (List.find (ownsChild ch) members) as [mem|].
  - destruct Hfound as [-> Hmem]. rewrite Hmem in Hslugs.
    destruct (member _ "eventTypes") as [eventTypes|] eqn:Htypes; [|done].
    apply member_ok in Htypes as [_ ->]. cbn [mbind Result_bind] in Hslugs.
    destruct (get (get mem "user") "eventTypes") as [| | | | | | |evTys|]; try done.
    cbn [arrayItems mbind Result_bind] in Hslugs.
    destruct (mapResult _ evTys) as [all|] eqn:Hall; [|done].
    apply mapResult_member in Hall as ->. cbn [mbind Result_bind] in Hslugs.
    exists evTys. split; [done|]. by injection Hslugs as <-.
  - subst found. by injection Hslugs as <-.
Qed.

(** A child of the draft is the record's child with [created] and
    [owner] written over, and its owner the child's owner with
    [eventTypeSlugs] written over. *)
Lemma defaultChild_record (eventType : gmap string JsVal) (ch child : JsVal) :
  defaultChild eventType ch = Ok child →
  (∀ k, k ≠ "created" → k ≠ "owner" → spread child !! k = spread ch !! k) ∧
  (∀ k, k ≠ "eventTypeSlugs" →
        spread (get child "owner") !! k = spread (get ch "owner") !! k) ∧
  memberSlugs eventType ch = Ok (get (get child "owner") "eventTypeSlugs").
Proof.
  unfold defaultChild.
  destruct (member ch "owner") as [owner|] eqn:Howner; [|done].
  apply member_ok in Howner as [_ ->]. cbn [mbind Result_bind].
  destruct (memberSlugs eventType ch) as [slugs|]; [|done].
  cbn [mbind Result_bind]. intros [= <-].
  unfold assign; cbn [foldl fst snd get spread]. split; [|split].
  - intros k Hcreated Howner. by rewrite !lookup_insert_ne.
  - intros k Hslugs. rewrite lookup_insert_eq. cbn [default from_option id spread].
    by rewrite lookup_insert_ne.
  - rewrite lookup_insert_eq. cbn [default from_option id get].
    by rewrite lookup_insert_eq.
Qed.

(** X13: in the default values the children of the draft are the
    children of the record, one for one and in order.  Each is the
    record's child with every field kept but [created], which is
    [true], and [owner]; the owner is the child's owner with every field
    kept but [eventTypeSlugs].  That list never contains the slug of the
    event type itself and is empty for an event type without a team;
    with a team it holds, in their order, the other slugs of the event
    types of the first team member whose user is the child's owner, and
    is empty when no member is. *)
Theorem default_children_created
    (eventType periodDates draft : gmap string JsVal) (metadata : JsVal) :
  defaultValues eventType periodDates metadata = Ok draft →
  ∃ items children,
    field eventType "children" = VArr items ∧
    field draft "children" = VArr children ∧
    Forall2 (λ ch child,
      (∀ k, k ≠ "created" → k ≠ "owner" → spread child !! k = spread ch !! k) ∧
      get child "created" = VBool true ∧
      (∀ k, k ≠ "eventTypeSlugs" →
            spread (get child "owner") !! k = spread (get ch "owner") !! k) ∧
      ∃ slugs,
        get (get child "owner") "eventTypeSlugs" = VArr slugs ∧
        Forall (λ s, strict_eq s (field eventType "slug") = false) slugs ∧
        (nullish (field eventType "team") = true → slugs = []) ∧
        (∀ members, get (field eventType "team") "members" = VArr members →
           match List.find (ownsChild ch) members with
           | Some mem =>
               ∃ evTys, get (get mem "user") "eventTypes" = VArr evTys ∧
                 slugs = filter (λ slug, strict_eq slug (field eventType "slug") = false)
                                (map (λ evTy, get evTy "slug") evTys)
           | None => slugs = []
           end)) items children.
Proof.
  intros Hdraft.
  destruct (defaultValues_children _ _ _ _ Hdraft) as (items & children & Hitems & Hmap & ->).
  exists items, children. split; [done|]. split; [lookup_draft|].
  apply mapResult_Forall2 in Hmap. clear Hitems Hdraft.
  induction Hmap as [|ch child items children Hch _ IH]; constructor; [|done].
  destruct (defaultChild_shape _ _ _ Hch) as (Hcreated & slugs & Hslugs & Hown & Hteam).
  destruct (defaultChild_record _ _ _ Hch) as (Hfields & Howner & Hmember).
  split; [done|]. split; [done|]. split; [done|].
  exists slugs. split; [done|]. split; [done|]. split; [done|].
  intros members Hmembers. rewrite Hslugs in Hmember.
  pose proof (memberSlugs_owner _ _ _ _ Hmember Hmembers) as Hfound.
  destruct (List.find (ownsChild ch) members) as [mem|].
  - destruct Hfound as (evTys & Htypes & [= ->]). by exists evTys.
  - by injection Hfound as ->.
Qed.

(** ** Saving the draft as it was initialised *)

Section UntouchedDraft.
Context `{!Imports}.

Lemma updateInput_written (eventType values : gmap string JsVal) :
  nullish (field values "periodDates") = false →
  ∃ payload, updateInput eventType values = Ok payload ∧
    payload !! "locations" = Some (field values "locations") ∧
    payload !! "recurringEvent" = Some (field values "recurringEvent") ∧
    payload !! "bookingLimits" = Some (field values "bookingLimits") ∧
    payload !! "durationLimits" = Some (field values "durationLimits") ∧
    payload !! "seatsPerTimeSlot" = Some (field values "seatsPerTimeSlot") ∧
    payload !! "seatsShowAttendees" = Some (field values "seatsShowAttendees") ∧
    payload !! "customInputs" = Some (field values "customInputs") ∧
    payload !! "metadata" = Some (field values "metadata") ∧
    payload !! "children" = Some (field values "children").
Proof.
  intros Hpd. unfold updateInput, member. rewrite Hpd. cbn [mbind Result_bind].
  eexists; split; [reflexivity|]. unfold assign; cbn [foldl fst snd].
  repeat split; repeat (rewrite lookup_insert_ne by done); by rewrite lookup_insert_eq.
Qed.

Lemma default_draft_fields (eventType periodDates draft : gmap string JsVal) metadata :
  defaultValues eventType periodDates metadata = Ok draft →
  (draft !! "seatsPerTimeSlot" = None ∧
   draft !! "seatsShowAttendees" = None ∧
   draft !! "customInputs" = None ∧
   draft !! "beforeBufferTime" = None ∧
   draft !! "afterBufferTime" = None ∧
   draft !! "minimumBookingNoticeInDurationType" = None ∧
   draft !! "bookerLayouts" = None) ∧
  (draft !! "periodDates"
     = Some (VObj (assign ∅ [("startDate", field periodDates "startDate");
                             ("endDate", field periodDates "endDate")])) ∧
   draft !! "periodCountCalendarDays"
     = Some (if truthy (field eventType "periodCountCalendarDays")
             then VStr "1" else VStr "0") ∧
   draft !! "metadata" = Some metadata ∧
   ∃ children, draft !! "children" = Some (VArr children)) ∧
  Forall (λ k, draft !! k = Some (field eventType k))
    ["title"; "length"; "hidden"; "periodType"; "schedulingType";
     "minimumBookingNotice"; "hosts"; "bookingFields"].
Proof.
  intros Hdraft.
  destruct (defaultValues_children _ _ _ _ Hdraft) as (items & children & _ & _ & ->).
  split; [repeat split; lookup_draft|].
  split; [repeat split; try lookup_draft; exists children; lookup_draft|].
  repeat constructor; lookup_draft.
Qed.

Lemma field_lookup (o : gmap string JsVal) k v : o !! k = v → field o k = default VUndefined v.
Proof. by intros <-. Qed.

Lemma default_draft_seats (eventType periodDates draft : gmap string JsVal) metadata :
  defaultValues eventType periodDates metadata = Ok draft →
  checkSeatsAndPayment draft = Ok tt ∧
  nullish (field draft "periodDates") = false.
Proof.
  intros Hdraft.
  destruct (default_draft_fields _ _ _ _ Hdraft)
    as ((Hseats & _) & (Hdates & _) & _).
  split.
  - unfold checkSeatsAndPayment. rewrite (field_lookup _ _ _ Hseats).
    cbn [default from_option id truthy]. by rewrite andb_false_r.
  - by rewrite (field_lookup _ _ _ Hdates).
Qed.

(** X15: for the draft as [defaultValues] builds it, before any tab has
    added a field, the two submit paths do exactly the same: the same
    error, or the same single call of the mutation with the same
    payload. *)
Theorem untouched_draft_paths_agree
    (eventType periodDates draft : gmap string JsVal) (metadata : JsVal) (p : Page) :
  defaultValues eventType periodDates metadata = Ok draft →
  handleSubmit eventType draft p = formHandleSubmit eventType draft p.
Proof.
  intros Hdraft.
  destruct (default_draft_seats _ _ _ _ Hdraft) as [Hseats Hpd].
  destruct (default_draft_fields _ _ _ _ Hdraft)
    as ((_ & _ & _ & _ & _ & Hdn & Hdl) & (_ & _ & _ & children & Hdc) & _).
  rewrite handleSubmit_unfold, formHandleSubmit_unfold, validationRules_split, Hseats.
  destruct (runRules formValidationRules draft) as [[]|e]; [|done].
  destruct (payloads_agree_elsewhere eventType draft Hpd)
    as (sent & sentByForm & Hs & Hf & Hagree & Hchildren & Hchildren').
  destruct (updateInput_ok eventType draft Hpd)
    as (sent' & Hs' & (_ & _ & _ & Hnotice & _) & Hlayouts & _).
  destruct (formUpdateInput_ok eventType draft Hpd)
    as (sentByForm' & Hf' & Hnotice' & Hlayouts' & _).
  rewrite Hs in Hs'. rewrite Hf in Hf'.
  assert (sent' = sent) as -> by congruence.
  assert (sentByForm' = sentByForm) as -> by congruence.
  rewrite Hs, Hf. do 2 f_equal. f_equal. apply map_eq. intros k.
  destruct (decide (k = "minimumBookingNoticeInDurationType")) as [-> | Hk1];
    [by rewrite Hnotice, Hnotice', Hdn|].
  destruct (decide (k = "bookerLayouts")) as [-> | Hk2];
    [by rewrite Hlayouts, Hlayouts', Hdl|].
  destruct (decide (k = "children")) as [-> | Hk3];
    [by rewrite Hchildren, Hchildren', (field_lookup _ _ _ Hdc), Hdc|].
  apply Hagree. rewrite !elem_of_cons, elem_of_nil. by intros [?|[?|[?|?]]].
Qed.

(** X16: saving the draft as it was initialised sends the record back:
    title, length, visibility, period type, scheduling type, minimum
    notice, hosts, booking fields and the record's own [id] as they are
    in the record, the two period dates as the page holds them, and the
    calendar-days flag as the boolean "the record's flag is truthy".
    The fields the default values do not set (buffers, seats, custom
    inputs) are sent as [undefined]. *)
Theorem untouched_draft_round_trip
    (eventType periodDates draft : gmap string JsVal) (metadata : JsVal) (p : Page) :
  defaultValues eventType periodDates metadata = Ok draft →
  ∃ payload,
    updateInput eventType draft = Ok payload ∧
    (runRules validationRules draft = Ok tt →
       handleSubmit eventType draft p = (Ok tt, withMutation payload p)) ∧
    payload !! "id" = Some (field eventType "id") ∧
    Forall (λ k, payload !! k = Some (field eventType k))
      ["title"; "length"; "hidden"; "periodType"; "schedulingType";
       "minimumBookingNotice"; "hosts"; "bookingFields"] ∧
    payload !! "periodStartDate" = Some (field periodDates "startDate") ∧
    payload !! "periodEndDate" = Some (field periodDates "endDate") ∧
    payload !! "periodCountCalendarDays"
      = Some (VBool (truthy (field eventType "periodCountCalendarDays"))) ∧
    payload !! "metadata" = Some metadata ∧
    Forall (λ k, payload !! k = Some VUndefined)
      ["beforeEventBuffer"; "afterEventBuffer"; "seatsPerTimeSlot";
       "seatsShowAttendees"; "customInputs"].
Proof.
  intros Hdraft.
  destruct (default_draft_seats _ _ _ _ Hdraft) as [_ Hpd].
  destruct (default_draft_fields _ _ _ _ Hdraft)
    as ((Hdseats & Hdshow & Hdinputs & Hdbefore & Hdafter & _)
        & (Hddates & Hddays & Hdmeta & _) & Hecho).
  destruct (updateInput_lookup eventType draft Hpd)
    as (payload & Hp & Hpass & Hid & Hbefore & Hafter).
  destruct (updateInput_ok eventType draft Hpd)
    as (payload' & Hp' & (Hstart & Hend & Hdays & _) & _).
  destruct (updateInput_written eventType draft Hpd)
    as (payload'' & Hp'' & _ & _ & _ & _ & Hseats & Hshow & Hinputs & Hmeta & _).
  rewrite Hp in Hp', Hp''.
  assert (payload' = payload) as -> by congruence.
  assert (payload'' = payload) as -> by congruence.
  exists payload. split; [done|].
  split; [intros Hrules; by rewrite handleSubmit_unfold, Hrules, Hp|].
  split; [done|].
  split.
  { repeat match goal with
           | Hall : Forall _ (_ :: _) |- _ => apply Forall_cons in Hall as [? Hall]
           end.
    repeat constructor;
      (rewrite Hpass by first [solve_key | done]; by rewrite decide_False by solve_key). }
  rewrite (field_lookup _ _ _ Hddates) in Hstart, Hend.
  rewrite (field_lookup _ _ _ Hddays) in Hdays.
  rewrite (field_lookup _ _ _ Hdmeta) in Hmeta.
  rewrite (field_lookup _ _ _ Hdseats) in Hseats.
  rewrite (field_lookup _ _ _ Hdshow) in Hshow.
  rewrite (field_lookup _ _ _ Hdinputs) in Hinputs.
  rewrite (field_lookup _ _ _ Hdbefore) in Hbefore.
  rewrite (field_lookup _ _ _ Hdafter) in Hafter.
  cbn [default from_option id get] in *.
  split; [rewrite Hstart; f_equal; lookup_draft|].
  split; [rewrite Hend; f_equal; lookup_draft|].
  split; [rewrite Hdays; by destruct (truthy _)|]. split; [done|].
  by repeat constructor.
Qed.

End UntouchedDraft.

(** ** When the default values can be built *)

Lemma mapResult_ok_iff {A B} (f : A → Result B) (l : list A) :
  (∃ l', mapResult f l = Ok l') ↔ Forall (λ x, ∃ y, f x = Ok y) l.
Proof.
  induction l as [|x l IH]; cbn [mapResult].
  - split; [constructor | by eexists].
  - split.
    + intros [l' Hl']. destruct (f x) as [y|] eqn:Hx; [|done].
      cbn [mbind Result_bind] in Hl'.
      destruct (mapResult f l) as [ys|]; [|done].
      constructor; [by eexists | apply IH; by eexists].
    + intros [[y Hy] [ys Hys]%IH]%Forall_cons. rewrite Hy, Hys. by eexists.
Qed.

(** X14: for an event type without a team the default values can be
    built exactly when the record's [children] is an array none of whose
    elements is [null] or [undefined]; otherwise rendering throws. *)
Theorem default_values_without_team
    (eventType periodDates : gmap string JsVal) (metadata : JsVal) :
  nullish (field eventType "team") = true →
  (∃ draft, defaultValues eventType periodDates metadata = Ok draft) ↔
  (∃ items, field eventType "children" = VArr items ∧
            Forall (λ ch, nullish ch = false) items).
Proof.
  intros Hteam.
  assert (Hchild : ∀ ch, (∃ child, defaultChild eventType ch = Ok child)
                         ↔ nullish ch = false).
  { intros ch. unfold defaultChild, memberSlugs, member. rewrite Hteam.
    destruct (nullish ch); cbn [mbind Result_bind]; split; try done;
      [by intros [? ?] | by eexists]. }
  unfold defaultValues. split.
  - intros [draft Hdraft].
    destruct (field eventType "children") as [| | | | | | |items|]; try done.
    exists items. split; [done|]. cbn [arrayItems mbind Result_bind] in Hdraft.
    destruct (mapResult (defaultChild eventType) items) as [children|] eqn:Hmap; [|done].
    eapply Forall_impl;
      [apply (proj1 (mapResult_ok_iff (defaultChild eventType) items)); by eexists|].
    intros ch. apply Hchild.
  - intros (items & -> & Hitems). cbn [arrayItems mbind Result_bind].
    destruct (proj2 (mapResult_ok_iff (defaultChild eventType) items)) as [children ->].
    { eapply Forall_impl; [exact Hitems|]. intros ch. apply Hchild. }
    by eexists.
Qed.

(** ** The error toast *)

(** X17: the error handler of the mutation always shows a toast, and
    only toasts of kind "error".  The last toast is decided by the error
    code alone: a fixed text for UNAUTHORIZED, whatever the server's
    message; the code and the message for PARSE_ERROR and BAD_REQUEST;
    the bare message for anything else.  An [HttpError] gets a toast of
    its own first, so it is reported twice. *)
Theorem onError_toasts (err : MutationError) :
  Forall (λ toast, toast.2 = "error") (onError err) ∧
  length (onError err) = (if isHttpError err then 2 else 1)%nat ∧
  (errCode err = Some "UNAUTHORIZED" →
     last (onError err)
       = Some ("UNAUTHORIZED: You are not able to update this event", "error")) ∧
  (errCode err = Some "PARSE_ERROR" ∨ errCode err = Some "BAD_REQUEST" →
     ∃ code, errCode err = Some code ∧
       last (onError err) = Some (code ++ ": " ++ errMessage err, "error")) ∧
  (errCode err ≠ Some "UNAUTHORIZED" → errCode err ≠ Some "PARSE_ERROR" →
   errCode err ≠ Some "BAD_REQUEST" →
     last (onError err) = Some (errMessage err, "error")) ∧
  (isHttpError err = true →
     head (onError err)
       = Some (pretty (statusCode err) ++ ": " ++ errMessage err, "error")).
Proof.
  unfold onError. rewrite last_snoc, length_app.
  split; [|split; [by destruct (isHttpError err)|]].
  { apply Forall_app. split; [destruct (isHttpError err); by repeat constructor|].
    repeat constructor. by destruct (negb _). }
  split; [by intros ->|]. split; [intros [-> | ->]; by eexists|].
  split; [|by intros ->].
  intros Hu Hp Hb. destruct (errCode err) as [code|]; [|done].
  destruct (String.eqb code "UNAUTHORIZED") eqn:H1;
    [apply String.eqb_eq in H1; congruence|].
  destruct (String.eqb code "PARSE_ERROR") eqn:H2;
    [apply String.eqb_eq in H2; congruence|].
  destruct (String.eqb code "BAD_REQUEST") eqn:H3;
    [apply String.eqb_eq in H3; congruence|].
  done.
Qed.

(** ** The counters of the apps tab *)

Lemma filterResult_ok {A} (f : A → Result bool) (l kept : list A) :
  filterResult f l = Ok kept →
  kept = filter (λ x, f x = Ok true) l ∧ Forall (λ x, ∃ b, f x = Ok b) l.
Proof.
  revert kept. induction l as [|x l IH]; intros kept; cbn [filterResult].
  - intros [= <-]. by split.
  - destruct (f x) as [b|] eqn:Hx; [|done]. cbn [mbind Result_bind].
    destruct (filterResult f l) as [kept'|]; [|done]. cbn [mbind Result_bind].
    intros [= <-]. destruct (IH _ eq_refl) as [-> Hall].
    split; [|constructor; [by eexists | done]].
    rewrite filter_cons, Hx. destruct b; [by rewrite decide_True | by rewrite decide_False].
Qed.

Lemma findResult_found (f : JsVal → Result bool) (l : list JsVal) (found : JsVal) :
  findResult f l = Ok found →
  found = VUndefined ∨ (found ∈ l ∧ f found = Ok true).
Proof.
  induction l as [|x l IH]; cbn [findResult]; [intros [= <-]; by left|].
  destruct (f x) as [[]|] eqn:Hx; cbn [mbind Result_bind]; [| |done].
  - intros [= <-]. right. split; [left | done].
  - intros [? | [? ?]]%IH; [by left | right; split; [by right | done]].
Qed.

Lemma strict_eq_string (v : JsVal) (s : string) : strict_eq v (VStr s) = true → v = VStr s.
Proof. destruct v; cbn; try done. by intros ->%String.eqb_eq. Qed.

Lemma filter_none {A} (P : A → Prop) `{∀ x, Decision (P x)} (l : list A) :
  (∀ x, ¬ P x) → filter P l = [].
Proof.
  intros HP. induction l as [|x l IH]; [done|].
  by rewrite filter_cons, decide_False.
Qed.

(** An entry the callback accepts names an installed app of the list. *)
Lemma isActiveApp_installed (items : list JsVal) (entry : string * JsVal) :
  isActiveApp (VArr items) entry = Ok true →
  ∃ app, app ∈ items ∧ isInstalledApp app = Ok true ∧ get app "slug" = VStr entry.1.
Proof.
  unfold isActiveApp. cbn [nullish arrayItems mbind Result_bind].
  destruct (findResult _ items) as [found|] eqn:Hfind; [|done].
  cbn [mbind Result_bind].
  destruct (truthy (opt found "isInstalled")) eqn:Hinstalled; [|done]. intros _.
  apply findResult_found in Hfind as [-> | [Hin Hslug]]; [done|].
  exists found. split; [done|]. unfold isInstalledApp, member, opt in *.
  destruct (nullish found); [done|]. cbn [mbind Result_bind] in *.
  split; [by rewrite Hinstalled|]. injection Hslug as Hslug.
  by apply strict_eq_string.
Qed.

(** X18: the number of active apps never exceeds the number of
    installed apps: every app counted as active is a different
    installed app of the list. *)
Theorem active_apps_at_most_installed
    (values : gmap string JsVal) (eventTypeApps : JsVal) (active installed : nat) :
  numberOfActiveApps values eventTypeApps = Ok active →
  numberOfInstalledApps eventTypeApps = Ok installed →
  (active ≤ installed)%nat.
Proof.
  unfold numberOfActiveApps, numberOfInstalledApps.
  set (appsMetadata := opt (field values "metadata") "apps").
  destruct (truthy appsMetadata); [|intros [= <-] _; lia].
  destruct (filterResult (isActiveApp eventTypeApps) (objectEntries appsMetadata))
    as [keptActive|] eqn:Hactive; [|done].
  cbn [mbind Result_bind]. intros [= <-].
  apply filterResult_ok in Hactive as [-> _].
  destruct eventTypeApps as [| | | | | | |items|];
    try (cbn [nullish arrayItems mbind Result_bind]; done).
  - (* the query has not answered *)
    intros [= <-]. rewrite filter_none; [done|]. by intros entry.
  - intros [= <-]. rewrite filter_none; [done|]. by intros entry.
  - cbn [nullish arrayItems mbind Result_bind].
    destruct (filterResult isInstalledApp items) as [keptInstalled|] eqn:Hinst; [|done].
    cbn [mbind Result_bind]. intros [= <-].
    apply filterResult_ok in Hinst as [-> _].
    set (activeEntries := filter _ (objectEntries appsMetadata)).
    set (installedApps := filter _ items).
    assert (Hnodup : NoDup (VStr <$> activeEntries.*1)).
    { apply (NoDup_fmap_2 VStr).
      apply (sublist_NoDup _ ((objectEntries appsMetadata).*1)).
      - unfold objectEntries. destruct appsMetadata; try apply NoDup_nil_2.
        apply NoDup_fst_map_to_list.
      - apply fmap_sublist, sublist_filter. }
    assert (Hsub : VStr <$> activeEntries.*1 ⊆+ (λ app, get app "slug") <$> installedApps).
    { apply NoDup_submseteq; [done|]. intros v Hv.
      apply list_elem_of_fmap in Hv as (k & -> & Hk).
      apply list_elem_of_fmap in Hk as (entry & -> & Hentry).
      apply list_elem_of_filter in Hentry as [Hok _].
      destruct (isActiveApp_installed _ _ Hok) as (app & Happ & Hinstalled & Hslug).
      apply list_elem_of_fmap. exists app. split; [done|].
      by apply list_elem_of_filter. }
    apply submseteq_length in Hsub. by rewrite !length_fmap in Hsub.
Qed.

(** X19: until the apps query has answered ([eventTypeApps] is
    [undefined]) both counters are 0, whatever the draft holds; neither
    throws. *)
Theorem app_counters_while_loading (values : gmap string JsVal) :
  numberOfInstalledApps VUndefined = Ok 0%nat ∧
  numberOfActiveApps values VUndefined = Ok 0%nat.
Proof.
  split; [done|]. unfold numberOfActiveApps.
  destruct (truthy _); [|done].
  assert (Hnone : ∀ entries, filterResult (isActiveApp VUndefined) entries = Ok []).
  { induction entries as [|entry entries IH]; [done|].
    cbn [filterResult]. replace (isActiveApp VUndefined entry) with (Ok false) by done.
    cbn [mbind Result_bind]. by rewrite IH. }
  by rewrite Hnone.
Qed.

(** ** The tab name of the query *)

(** X20: the query schema accepts a tab name exactly when it is one of
    the nine names of the enumeration, spelled as there; any other name
    is a parse error and does not fall back to [setup]. *)
Theorem parseTabName_accepts (name : string) (tab : TabName) :
  parseTabName (Some name) = Some tab ↔ (name, tab) ∈ tabNames.
Proof.
  unfold parseTabName, tabNames. cbn [assoc]. split.
  - repeat (destruct (String.eqb name _) eqn:Hname;
            [apply String.eqb_eq in Hname; subst; intros [= <-]; solve_key
            | clear Hname]);
    done.
  - rewrite !elem_of_cons, elem_of_nil. intros Hin.
    destruct_or!; try done; simplify_eq; reflexivity.
Qed.

(** ** Witnesses *)

Lemma handleSubmit_payload_passthrough_witness :
  ∃ payload,
    @handleSubmit plainImports exampleEventType draftWithUiFields
        (initialPage draftWithUiFields)
      = (Ok tt, withMutation payload (initialPage draftWithUiFields)) ∧
    (∀ k, k ∉ handleSubmitTaken → k ∉ payloadWritten →
          payload !! k = draftWithUiFields !! k) ∧
    (∀ k, k ∈ handleSubmitTaken → k ∉ payloadWritten → k ≠ "children" →
          payload !! k = None) ∧
    payload !! "id" = Some (field exampleEventType "id") ∧
    payload !! "beforeEventBuffer" = Some (field draftWithUiFields "beforeBufferTime") ∧
    payload !! "afterEventBuffer" = Some (field draftWithUiFields "afterBufferTime").
Proof.
  apply (@handleSubmit_payload_passthrough plainImports exampleEventType
           draftWithUiFields (initialPage draftWithUiFields));
    vm_compute; reflexivity.
Defined.

Lemma submit_paths_agree_but_for_three_keys_witness :
  (∃ e, @handleSubmit plainImports exampleEventType draftWithUiFields
          (initialPage draftWithUiFields) = (Throw e, initialPage draftWithUiFields) ∧
        @formHandleSubmit plainImports exampleEventType draftWithUiFields
          (initialPage draftWithUiFields) = (Throw e, initialPage draftWithUiFields)) ∨
  (∃ sent sentByForm,
     @handleSubmit plainImports exampleEventType draftWithUiFields
         (initialPage draftWithUiFields)
       = (Ok tt, withMutation sent (initialPage draftWithUiFields)) ∧
     @formHandleSubmit plainImports exampleEventType draftWithUiFields
         (initialPage draftWithUiFields)
       = (Ok tt, withMutation sentByForm (initialPage draftWithUiFields)) ∧
     (∀ k, k ∉ ["minimumBookingNoticeInDurationType"; "bookerLayouts"; "children"] →
           sent !! k = sentByForm !! k) ∧
     sent !! "minimumBookingNoticeInDurationType" = None ∧
     sent !! "bookerLayouts" = None ∧
     sent !! "children" = Some (field draftWithUiFields "children") ∧
     sentByForm !! "minimumBookingNoticeInDurationType"
       = draftWithUiFields !! "minimumBookingNoticeInDurationType" ∧
     sentByForm !! "bookerLayouts" = draftWithUiFields !! "bookerLayouts" ∧
     sentByForm !! "children" = draftWithUiFields !! "children").
Proof.
  apply (@submit_paths_agree_but_for_three_keys plainImports exampleEventType
           draftWithUiFields (initialPage draftWithUiFields)).
  vm_compute; reflexivity.
Defined.

Lemma handleSubmit_rejects_seats_with_hold_witness :
  (∃ e, @handleSubmit plainImports exampleEventType draftSeatsAndHold
          (initialPage draftSeatsAndHold) = (Throw e, initialPage draftSeatsAndHold)) ∧
  (runRules (@formValidationRules plainImports) draftSeatsAndHold = Ok tt →
   @handleSubmit plainImports exampleEventType draftSeatsAndHold
       (initialPage draftSeatsAndHold)
     = (Throw (Error "seats_and_no_show_fee_error"), initialPage draftSeatsAndHold)).
Proof.
  apply (@handleSubmit_rejects_seats_with_hold plainImports exampleEventType
           draftSeatsAndHold (initialPage draftSeatsAndHold));
    vm_compute; reflexivity.
Defined.

Lemma empty_duration_set_rejected_witness :
  @handleSubmit plainImports exampleEventType draftNoDurations
      (initialPage draftNoDurations)
    = (Throw (Error "event_setup_multiple_duration_error"), initialPage draftNoDurations) ∧
  @formHandleSubmit plainImports exampleEventType draftNoDurations
      (initialPage draftNoDurations)
    = (Throw (Error "event_setup_multiple_duration_error"), initialPage draftNoDurations).
Proof.
  apply (@empty_duration_set_rejected plainImports exampleEventType draftNoDurations
           (initialPage draftNoDurations));
    vm_compute; reflexivity.
Defined.

Lemma duration_default_checked_only_when_falsy_witness :
  (truthy (field draftDurationOutsideSet "length") = true →
     runRules (@formValidationRules plainImports) draftDurationOutsideSet = Ok tt) ∧
  (truthy (field draftDurationOutsideSet "length") = false →
     existsb (same_value_zero (field draftDurationOutsideSet "length"))
             [VNum 15; VNum 45] = true →
     runRules (@formValidationRules plainImports) draftDurationOutsideSet = Ok tt) ∧
  (truthy (field draftDurationOutsideSet "length") = false →
     existsb (same_value_zero (field draftDurationOutsideSet "length"))
             [VNum 15; VNum 45] = false →
     @handleSubmit plainImports exampleEventType draftDurationOutsideSet
         (initialPage draftDurationOutsideSet)
       = (Throw (Error "event_setup_multiple_duration_default_error"),
          initialPage draftDurationOutsideSet) ∧
     @formHandleSubmit plainImports exampleEventType draftDurationOutsideSet
         (initialPage draftDurationOutsideSet)
       = (Throw (Error "event_setup_multiple_duration_default_error"),
          initialPage draftDurationOutsideSet)).
Proof.
  apply (@duration_default_checked_only_when_falsy plainImports exampleEventType
           draftDurationOutsideSet (initialPage draftDurationOutsideSet)
           (VNum 15) [VNum 45]);
    vm_compute; reflexivity.
Defined.

Lemma submit_without_period_dates_throws_witness :
  (runRules (@validationRules plainImports) draftWithoutPeriodDates = Ok tt →
     @handleSubmit plainImports exampleEventType draftWithoutPeriodDates
         (initialPage draftWithoutPeriodDates)
       = (Throw TypeError, initialPage draftWithoutPeriodDates)) ∧
  (runRules (@formValidationRules plainImports) draftWithoutPeriodDates = Ok tt →
     @formHandleSubmit plainImports exampleEventType draftWithoutPeriodDates
         (initialPage draftWithoutPeriodDates)
       = (Throw TypeError, initialPage draftWithoutPeriodDates)) ∧
  (∃ e, @handleSubmit plainImports exampleEventType draftWithoutPeriodDates
          (initialPage draftWithoutPeriodDates)
        = (Throw e, initialPage draftWithoutPeriodDates)) ∧
  (∃ e, @formHandleSubmit plainImports exampleEventType draftWithoutPeriodDates
          (initialPage draftWithoutPeriodDates)
        = (Throw e, initialPage draftWithoutPeriodDates)).
Proof.
  apply (@submit_without_period_dates_throws plainImports exampleEventType
           draftWithoutPeriodDates (initialPage draftWithoutPeriodDates)).
  vm_compute; reflexivity.
Defined.

Lemma mutation_success_marks_children_witness :
  ∃ children',
    field (formValues (@step plainImports exampleEventType MutationSuccess
                         (initialPage draftSlugCollision))) "children"
      = VArr children' ∧
    length children' = 1%nat ∧
    Forall (λ child, get child "created" = VBool true) children'.
Proof.
  destruct (@mutation_success_marks_children plainImports exampleEventType
              (initialPage draftSlugCollision)
              [VObj (obj [("slug", VStr "intro");
                          ("owner", VObj (obj [("id", VNum 7); ("name", VStr "Alice");
                                               ("eventTypeSlugs", VArr [VStr "intro"])]))])])
    as (children' & Hchildren & Hlength & Hcreated & _).
  - vm_compute; reflexivity.
  - exists children'. split; [exact Hchildren|]. split; [exact Hlength | exact Hcreated].
Defined.

Lemma initMetadata_frame_witness :
  (∀ k, k ≠ "metadata" → exampleInitialisedRecord !! k = recordWithSchedule !! k) ∧
  (∀ k, k ≠ "config" →
        get (field exampleInitialisedRecord "metadata") k
        = get (field recordWithSchedule "metadata") k) ∧
  (∀ config k, get (field recordWithSchedule "metadata") "config" = VObj config →
        k ≠ hostSchedulesKey →
        get (get (field exampleInitialisedRecord "metadata") "config") k
        = get (VObj config) k).
Proof.
  apply (initMetadata_frame recordWithSchedule exampleInitialisedRecord exampleTeam).
  reflexivity.
Defined.

Lemma initMetadata_idempotent_witness :
  ∃ eventType'',
    initMetadata exampleInitialisedRecord exampleTeam = Ok eventType'' ∧
    hostSchedulesFlag (field eventType'' "metadata")
      = hostSchedulesFlag (field exampleInitialisedRecord "metadata").
Proof.
  apply (initMetadata_idempotent recordWithSchedule exampleInitialisedRecord exampleTeam).
  reflexivity.
Defined.

Lemma default_children_created_witness :
  field exampleDefaultDraft "children"
    = VArr [VObj (obj [("slug", VStr "intro"); ("created", VBool true);
                       ("owner", VObj (obj [("id", VNum 7); ("name", VStr "Alice");
                                            ("eventTypeSlugs", VArr [VStr "demo"])]))])] ∧
  ∃ items children,
    field exampleManagedRecord "children" = VArr items ∧
    field exampleDefaultDraft "children" = VArr children ∧
    Forall2 (λ ch child,
      (∀ k, k ≠ "created" → k ≠ "owner" → spread child !! k = spread ch !! k) ∧
      get child "created" = VBool true ∧
      (∀ k, k ≠ "eventTypeSlugs" →
            spread (get child "owner") !! k = spread (get ch "owner") !! k) ∧
      ∃ slugs,
        get (get child "owner") "eventTypeSlugs" = VArr slugs ∧
        Forall (λ s, strict_eq s (field exampleManagedRecord "slug") = false) slugs ∧
        (nullish (field exampleManagedRecord "team") = true → slugs = []) ∧
        (∀ members, get (field exampleManagedRecord "team") "members" = VArr members →
           match List.find (ownsChild ch) members with
           | Some mem =>
               ∃ evTys, get (get mem "user") "eventTypes" = VArr evTys ∧
                 slugs = filter (λ slug,
                                   strict_eq slug (field exampleManagedRecord "slug") = false)
                                (map (λ evTy, get evTy "slug") evTys)
           | None => slugs = []
           end)) items children.
Proof.
  split; [vm_compute; reflexivity|].
  apply (default_children_created exampleManagedRecord examplePeriodState
           exampleDefaultDraft (VObj ∅)).
  reflexivity.
Defined.

Lemma default_values_without_team_witness :
  (∃ draft, defaultValues exampleSoloRecord examplePeriodState VNull = Ok draft) ↔
  (∃ items, field exampleSoloRecord "children" = VArr items ∧
            Forall (λ ch, nullish ch = false) items).
Proof.
  apply (default_values_without_team exampleSoloRecord examplePeriodState VNull).
  vm_compute; reflexivity.
Defined.

Lemma untouched_draft_paths_agree_witness :
  @handleSubmit plainImports exampleManagedRecord exampleDefaultDraft
      (initialPage exampleDefaultDraft)
  = @formHandleSubmit plainImports exampleManagedRecord exampleDefaultDraft
      (initialPage exampleDefaultDraft).
Proof.
  apply (@untouched_draft_paths_agree plainImports exampleManagedRecord
           examplePeriodState exampleDefaultDraft (VObj ∅)).
  reflexivity.
Defined.

Lemma untouched_draft_round_trip_witness :
  ∃ payload,
    updateInput exampleManagedRecord exampleDefaultDraft = Ok payload ∧
    payload !! "title" = Some (VStr "Intro call") ∧
    payload !! "periodCountCalendarDays" = Some (VBool true) ∧
    payload !! "beforeEventBuffer" = Some VUndefined.
Proof.
  destruct (@untouched_draft_round_trip plainImports exampleManagedRecord
              examplePeriodState exampleDefaultDraft (VObj ∅)
              (initialPage exampleDefaultDraft) ltac:(reflexivity))
    as (payload & Hp & _ & _ & Hecho & _ & _ & Hdays & _ & Hundef).
  exists payload. split; [exact Hp|].
  apply Forall_cons in Hecho as [Htitle _].
  apply Forall_cons in Hundef as [Hbefore _].
  split; [exact Htitle|]. split; [exact Hdays | exact Hbefore].
Defined.

Lemma onError_toasts_witness :
  last (onError exampleUnauthorized)
    = Some ("UNAUTHORIZED: You are not able to update this event", "error").
Proof.
  destruct (onError_toasts exampleUnauthorized) as (_ & _ & Hunauthorized & _).
  apply Hunauthorized. reflexivity.
Defined.

Lemma active_apps_at_most_installed_witness :
  numberOfActiveApps draftWithApps exampleApps = Ok 1%nat ∧
  numberOfInstalledApps exampleApps = Ok 2%nat ∧
  (1 ≤ 2)%nat.
Proof.
  split; [vm_compute; reflexivity|]. split; [vm_compute; reflexivity|].
  apply (active_apps_at_most_installed draftWithApps exampleApps 1 2);
    vm_compute; reflexivity.
Defined.

Lemma parseTabName_accepts_witness : parseTabName (Some "limits") = Some limits.
Proof.
  apply (proj2 (parseTabName_accepts "limits" limits)).
  apply (bool_decide_unpack _). vm_compute. exact I.
Defined.

(** ** The names in the dialog text, for any number of children *)

Lemma drop_to_last (names : list string) (name : string) :
  drop (length (names ++ [name]) - 1) (names ++ [name]) = [name].
Proof.
  rewrite length_app. cbn [length].
  replace (length names + 1 - 1)%nat with (length names) by lia.
  by rewrite drop_app_length.
Qed.

Section DialogText.
Context `{!Imports}.

(** X22: for a dialog state of one or more children the names are the
    owners' names in order: all but the last joined by ", ", then a
    space, the translated "and" when there is more than one child (and
    nothing when there is one), a space, and the last owner's name. *)
Theorem dialogNames_snoc (children : list JsVal) (child : JsVal) :
  dialogNames (children ++ [child])
  = join ", " (map ownerName children) ++ " " ++
    (if decide (children = []) then "" else t "and") ++ " " ++ ownerName child.
Proof.
  unfold dialogNames. rewrite map_app. cbn [map].
  rewrite removelast_last, drop_to_last. cbn [join].
  rewrite length_app. cbn [length].
  destruct children as [|ch children]; [done|].
  rewrite decide_False by done.
  replace (1 <? Z.of_nat (length (ch :: children) + 1))%Z with true; [done|].
  symmetry. apply Z.ltb_lt. cbn [length]. lia.
Qed.

(** ** What validation reads *)

(** X23: validation reads five fields of the draft and nothing else:
    two drafts that agree on [bookingLimits], [durationLimits],
    [metadata], [length] and [seatsPerTimeSlot] pass or fail the rules
    alike, with the same error, in both handlers. *)
Theorem validation_reads_five_fields (values values' : gmap string JsVal) :
  Forall (λ k, field values k = field values' k)
    ["bookingLimits"; "durationLimits"; "metadata"; "length"; "seatsPerTimeSlot"] →
  runRules validationRules values = runRules validationRules values' ∧
  runRules formValidationRules values = runRules formValidationRules values'.
Proof.
  intros Hfields.
  apply Forall_cons in Hfields as [Hbooking Hfields].
  apply Forall_cons in Hfields as [Hduration Hfields].
  apply Forall_cons in Hfields as [Hmetadata Hfields].
  apply Forall_cons in Hfields as [Hlength Hfields].
  apply Forall_cons in Hfields as [Hseats _].
  assert (Hform : runRules formValidationRules values
                  = runRules formValidationRules values').
  { unfold formValidationRules, runRules, checkBookingLimits, checkDurationLimits,
      checkBookerLayouts, checkMultipleDuration.
    by rewrite Hbooking, Hduration, Hmetadata, Hlength. }
  split; [|done].
  rewrite !validationRules_split, Hform. unfold checkSeatsAndPayment.
  by rewrite Hmetadata, Hseats.
Qed.

End DialogText.

Lemma dialog_confirm_mutations_witness :
  ∃ payload,
    mutations (@step plainImports exampleEventType DialogConfirm
                 (initialPage draftWithUiFields)) = [payload].
Proof.
  destruct (@dialog_confirm_mutations plainImports exampleEventType
              (initialPage draftWithUiFields)) as (_ & Hvalid & _).
  apply Hvalid; vm_compute; reflexivity.
Defined.

Lemma validation_reads_five_fields_witness :
  runRules (@validationRules plainImports) draftWithUiFields
    = runRules (@validationRules plainImports) draftWithoutPeriodDates ∧
  runRules (@formValidationRules plainImports) draftWithUiFields
    = runRules (@formValidationRules plainImports) draftWithoutPeriodDates.
Proof.
  apply (@validation_reads_five_fields plainImports draftWithUiFields
           draftWithoutPeriodDates).
  repeat constructor; vm_compute; reflexivity.
Defined.
